(** * pdf2docx: the page [Layout] object (pdf2docx/layout/Layout.py)

    A shallow embedding of the [Layout] class: the constructor, the
    [margin] property, [page_margin], [parse],
    [parse_table_structure_from_rects] and [parse_vertical_spacing].

    Numbers.  Page coordinates are Python floats.  They are modelled as
    exact rationals [Q]: comparisons, [min] and [max] are exact on floats,
    and none of the properties below depends on how a subtraction rounds.

    Exceptions.  Python exceptions are an explicit [result] type. *)

From Stdlib Require Import QArith Qminmax Lqa ZArith String List.
From stdpp Require Import base list.
Import ListNotations.

Local Open Scope Q_scope.

(** ** Exceptions and state *)

Inductive exn : Type :=
| NameError (name : string)
| TypeError (msg : string)
| ValueError (msg : string).

Inductive result (A : Type) : Type :=
| Ok (a : A)
| Raise (e : exn).

Arguments Ok {A} a.
Arguments Raise {A} e.

(** A method body runs on mutable state [S] (the instance it is called on)
    and either returns or raises; what it has mutated before raising stays
    mutated.  Bodies are written with stdpp's monad notation [x ← c; k]. *)
Definition M (S A : Type) : Type := S -> S * result A.

#[global] Instance M_ret {S : Type} : MRet (M S) :=
  fun A (a : A) (s : S) => (s, Ok a).

#[global] Instance M_bind {S : Type} : MBind (M S) :=
  fun A B (k : A -> M S B) (c : M S A) (s : S) =>
    match c s with
    | (s', Ok a) => k a s'
    | (s', Raise e) => (s', Raise e)
    end.

Definition get_state {S : Type} : M S S := fun s => (s, Ok s).
Definition put_state {S : Type} (s' : S) : M S unit := fun _ => (s', Ok tt).
Definition modify {S : Type} (f : S -> S) : M S unit := fun s => (f s, Ok tt).
Definition lift {S A : Type} (r : result A) : M S A := fun s => (s, r).
Definition raise {S A : Type} (e : exn) : M S A := lift (Raise e).

(** ** Geometry and page content *)

(** [fitz.Rect]: the [bbox] of a block or of a rectangle shape. *)
Record BBox : Type := mkBBox { x0 : Q; y0 : Q; x1 : Q; y1 : Q }.

(** A 4-tuple of floats: [margin], [cell.bbox_raw], [cell.border_width]. *)
Definition Tuple4 : Type := (Q * Q * Q * Q)%type.

(** Blocks of a page: text blocks and table blocks.  A table owns rows of
    cells; a cell is either empty (falsy: [if not cell]) or carries its raw
    bounding box, its border widths and its own block collection.
    [before_space] is the spacing attribute that
    [Blocks.parse_vertical_spacing] assigns. *)
Inductive Block : Type :=
| TextBlock (bbox : BBox) (before_space : Q)
| TableBlock (bbox : BBox) (before_space : Q) (cells : list (list Cell))
with Cell : Type :=
| EmptyCell
| MkCell (bbox_raw : Tuple4) (border_width : Tuple4) (blocks : list Block).

Definition bbox (b : Block) : BBox :=
  match b with
  | TextBlock bb _ => bb
  | TableBlock bb _ _ => bb
  end.

Definition is_table_block (b : Block) : bool :=
  match b with
  | TextBlock _ _ => false
  | TableBlock _ _ _ => true
  end.

(** A rectangle shape: [rect['type']] is its classification tag,
    [-1] meaning unclassified. *)
Record Rect : Type := mkRect { rect_bbox : BBox; type : Z }.

(** The raw page dict, with the keys of the module docstring; a key may be
    absent. *)
Record Raw : Type := mkRaw {
  raw_width : option Q;
  raw_height : option Q;
  raw_blocks : option (list Block);
  raw_margin : option Tuple4;
  raw_rects : option (list Rect)
}.

(** [raw.get(key, default)] *)
Definition get {A : Type} (field : option A) (default : A) : A :=
  match field with
  | Some v => v
  | None => default
  end.

(** The attributes of a [Layout] instance.  [Blocks] and [Rectangles] are
    ordered collections, falsy exactly when empty. *)
Record Layout : Type := mkLayout {
  width : Q;
  height : Q;
  blocks : list Block;
  _margin : option Tuple4;
  rects : list Rect
}.

Definition set_margin (self : Layout) (m : option Tuple4) : Layout :=
  mkLayout (width self) (height self) (blocks self) m (rects self).

Definition set_blocks (self : Layout) (bs : list Block) : Layout :=
  mkLayout (width self) (height self) bs (_margin self) (rects self).

Definition set_rects (self : Layout) (rs : list Rect) : Layout :=
  mkLayout (width self) (height self) (blocks self) (_margin self) rs.

(** [Layout.__init__].  [Blocks(...)] holds the blocks of the list it is
    given, and [Rectangles()] is the empty collection. *)
Definition Layout_init (raw : Raw) : Layout :=
  {| width := get (raw_width raw) 0;
     height := get (raw_height raw) 0;
     blocks := get (raw_blocks raw) [];
     _margin := None;
     rects := [] |}.

(** The [margin] property. *)
Definition margin (self : Layout) : option Tuple4 := _margin self.

(** ** Python's [min] and [max] *)

(** [min(a, b)]: the first argument is kept unless the second is strictly
    smaller. *)
Definition min2 (a b : Q) : Q := if Qlt_le_dec b a then b else a.

(** [max(a, b)]: the first argument is kept unless the second is strictly
    larger. *)
Definition max2 (a b : Q) : Q := if Qlt_le_dec a b then b else a.

(** [min(iterable)] and [max(iterable)]: [ValueError] on an empty one. *)
Definition py_min (l : list Q) : result Q :=
  match l with
  | [] => Raise (ValueError "min() arg is an empty sequence")
  | x :: xs => Ok (fold_left min2 xs x)
  end.

Definition py_max (l : list Q) : result Q :=
  match l with
  | [] => Raise (ValueError "max() arg is an empty sequence")
  | x :: xs => Ok (fold_left max2 xs x)
  end.

(** ** Margin *)

Section PageMargin.

(** [utils.ITP] (the normal margin, one inch in points) and [utils.DM]
    (the tolerance). *)
Variables ITP DM : Q.

(** [Layout.page_margin] *)
Definition page_margin : M Layout unit :=
  self ← get_state;
  match blocks self with
  | [] => put_state (set_margin self (Some (ITP, ITP, ITP, ITP)))
  | _ :: _ =>
    let list_bbox := map bbox (blocks self) in
    left ← lift (py_min (map x0 list_bbox));
    x_max ← lift (py_max (map x1 list_bbox));
    let right := width self - x_max - DM * 2 in
    let right := min2 right left in
    let right := max2 right 0 in
    top ← lift (py_min (map y0 list_bbox));
    y_max ← lift (py_max (map y1 list_bbox));
    let bottom := height self - y_max in
    let bottom := max2 bottom 0 in
    let bottom := bottom * (1 # 2) in
    put_state (set_margin self
      (Some (min2 ITP left, min2 ITP right, min2 ITP top, min2 ITP bottom)))
  end.

End PageMargin.

(** ** The module namespace *)

(** The global names bound once Layout.py has been executed: its imports
    and the class it defines.  (Builtins such as [min], [map] and
    [filter] are found in the builtins namespace and are not listed.) *)
Definition module_globals : list string :=
  ["json"; "Blocks"; "utils"; "Rectangles"; "Layout"]%string.

(** Reading a global name that is not bound raises [NameError]. *)
Definition load_global {S : Type} (globals : list string) (name : string)
  : M S unit :=
  if existsb (String.eqb name) globals then mret tt else raise (NameError name).

(** Inside [parse] and [parse_table_structure_from_rects] the state is a
    pair: the instance [self], and the object that the global name
    [layout] would denote (a layout with the same keys). *)
Definition World : Type := (Layout * Layout)%type.

(** Run a method of [self], or a function applied to [layout]. *)
Definition on_self {A : Type} (c : M Layout A) : M World A :=
  fun w => let '(s', r) := c (fst w) in ((s', snd w), r).

Definition on_layout {A : Type} (c : M Layout A) : M World A :=
  fun w => let '(l', r) := c (snd w) in ((fst w, l'), r).

(** ** Orchestration *)

Section Parse.

Variables ITP DM : Q.

(** The global namespace at call time. *)
Variable globals : list string.

(** [Blocks.preprocessing], on the block collection. *)
Variable Blocks_preprocessing : M (list Block) unit.

(** What the functions called through the global names
    [parse_explicit_table], [parse_implicit_table], [parse_text_format] and
    [parse_vertical_spacing] do to their argument. *)
Variables parse_explicit_table parse_implicit_table parse_text_format
  parse_vertical_spacing_function : M Layout unit.

(** [self.blocks.preprocessing(kwargs)] *)
Definition preprocess_blocks : M Layout unit :=
  fun self =>
    let '(bs, r) := Blocks_preprocessing (blocks self) in (set_blocks self bs, r).

(** [Layout.parse] *)
Definition parse : M World unit :=
  _ ← on_self preprocess_blocks;
  _ ← on_self (page_margin ITP DM);
  _ ← load_global globals "parse_explicit_table";
  _ ← load_global globals "layout";
  _ ← on_layout parse_explicit_table;
  _ ← load_global globals "parse_implicit_table";
  _ ← load_global globals "layout";
  _ ← on_layout parse_implicit_table;
  _ ← load_global globals "parse_text_format";
  _ ← load_global globals "layout";
  _ ← on_layout parse_text_format;
  _ ← load_global globals "parse_vertical_spacing";
  _ ← load_global globals "layout";
  on_layout parse_vertical_spacing_function.

End Parse.

(** ** Explicit tables from rectangle shapes *)

Definition set_type (t : Z) (rect : Rect) : Rect := mkRect (rect_bbox rect) t.

(** [for rect in group: rect['type'] = -1].  A group holds references to
    rects of [self.rects]: it is the list of their positions there, and the
    assignment is seen through [self.rects]. *)
Definition reset_types (group : list nat) (store : list Rect) : list Rect :=
  fold_left (fun st i => alter (set_type (-1)) i st) group store.

Section TableStructure.

Variable globals : list string.

(** [Rectangles.group]: the groups of [self.rects], by position. *)
Variable Rectangles_group : list Rect -> list (list nat).

(** What a call through the global name [_set_table_borders] does: it
    retags rects and answers whether the group is a table group. *)
Variable _set_table_borders : list nat -> M (list Rect) bool.

(** What a call through the global name
    [_parse_table_structure_from_rects] does: a table block, or nothing. *)
Variable _parse_table_structure_from_rects :
  list nat -> M (list Rect) (option Block).

(** What a call through the global name [set_explicit_table_block] does to
    the table. *)
Variable set_explicit_table_block : Block -> Block.

(** A computation on [self.rects]. *)
Definition on_rects {A : Type} (c : M (list Rect) A) : M World A :=
  on_self (fun self => let '(rs, r) := c (rects self) in (set_rects self rs, r)).

(** The body of [for group in groups], with [tables] threaded through. *)
Definition check_group (tables : list Block) (group : list nat)
  : M World (list Block) :=
  _ ← load_global globals "_set_table_borders";
  is_table_group ← on_rects (_set_table_borders group);
  if negb is_table_group then mret tables
  else
    _ ← load_global globals "_parse_table_structure_from_rects";
    table ← on_rects (_parse_table_structure_from_rects group);
    match table with
    | Some t =>
      _ ← load_global globals "set_explicit_table_block";
      mret (tables ++ [set_explicit_table_block t])
    | None =>
      _ ← on_rects (modify (reset_types group));
      mret tables
    end.

Fixpoint check_groups (tables : list Block) (groups : list (list nat))
  : M World (list Block) :=
  match groups with
  | [] => mret tables
  | group :: groups' =>
    tables' ← check_group tables group;
    check_groups tables' groups'
  end.

(** [Layout.parse_table_structure_from_rects].  (The [debug_plot]
    decorator only plots; it is left out.) *)
Definition parse_table_structure_from_rects : M World bool :=
  w ← get_state;
  let groups := Rectangles_group (rects (fst w)) in
  tables ← check_groups [] groups;
  match tables with
  | _ :: _ =>
    _ ← load_global globals "layout";
    _ ← on_layout (modify (fun l => set_blocks l (blocks l ++ tables)));
    mret true
  | [] => mret false
  end.

End TableStructure.

(** ** Vertical spacing *)

(** One call [collection.parse_vertical_spacing(top, bottom)]: the two
    bounds and the receiving collection. *)
Definition Call : Type := (Q * Q * list Block)%type.

Section VerticalSpacing.

(** [Blocks.parse_vertical_spacing (Y0, Y1)], on the receiving collection. *)
Variable Blocks_parse_vertical_spacing : Q -> Q -> list Block -> list Block.

(** A loop [for x in xs: body] that mutates the elements in place and
    records the calls it makes. *)
Fixpoint for_each {A : Type} (body : A -> A * list Call) (xs : list A)
  : list A * list Call :=
  match xs with
  | [] => ([], [])
  | x :: xs' =>
    let '(x', calls) := body x in
    let '(xs'', calls') := for_each body xs' in
    (x' :: xs'', calls ++ calls')
  end.

(** The body of [for cell in row]. *)
Definition spacing_in_cell (cell : Cell) : Cell * list Call :=
  match cell with
  | EmptyCell => (EmptyCell, [])
  | MkCell bbox_raw border_width cell_blocks =>
    let '(_, y0, _, y1) := bbox_raw in
    let '(w_top, _, w_bottom, _) := border_width in
    (MkCell bbox_raw border_width
       (Blocks_parse_vertical_spacing
          (y0 + w_top / 2) (y1 - w_bottom / 2) cell_blocks),
     [(y0 + w_top / 2, y1 - w_bottom / 2, cell_blocks)])
  end.

(** The body of [for table in tables], where [tables] are the blocks of
    [self.blocks] that pass [is_table_block]. *)
Definition spacing_in_table (block : Block) : Block * list Call :=
  match block with
  | TextBlock _ _ => (block, [])
  | TableBlock bb sp cells =>
    let '(cells', calls) := for_each (for_each spacing_in_cell) cells in
    (TableBlock bb sp cells', calls)
  end.

(** [Layout.parse_vertical_spacing].  The method returns [None]; the value
    returned here is the list of the calls it has made to
    [Blocks.parse_vertical_spacing], in order. *)
Definition parse_vertical_spacing : M Layout (list Call) :=
  self ← get_state;
  match margin self with
  | None => raise (TypeError "'NoneType' object is not subscriptable")
  | Some (_, _, top, bottom) =>
    let page_blocks :=
      Blocks_parse_vertical_spacing top (height self - bottom) (blocks self) in
    let '(page_blocks', calls) := for_each spacing_in_table page_blocks in
    _ ← put_state (set_blocks self page_blocks');
    mret ((top, height self - bottom, blocks self) :: calls)
  end.

End VerticalSpacing.

(** ** The margin algorithm in the words of the specification *)

(** "min over blocks" and "max over blocks" of a coordinate, on a
    non-empty collection [b :: bs]. *)
Fixpoint min_over (f : Block -> Q) (b : Block) (bs : list Block) : Q :=
  match bs with
  | [] => f b
  | b' :: bs' => Qmin (f b) (min_over f b' bs')
  end.

Fixpoint max_over (f : Block -> Q) (b : Block) (bs : list Block) : Q :=
  match bs with
  | [] => f b
  | b' :: bs' => Qmax (f b) (max_over f b' bs')
  end.

(** Steps 2 to 6 of the margin algorithm, for a page of the given width and
    height whose blocks are [b :: bs]. *)
Definition margin_reference (ITP DM page_width page_height : Q)
  (b : Block) (bs : list Block) : Tuple4 :=
  let left := min_over (fun blk => x0 (bbox blk)) b bs in
  let raw_right :=
    page_width - max_over (fun blk => x1 (bbox blk)) b bs - 2 * DM in
  let right := Qmax 0 (Qmin raw_right left) in
  let top := min_over (fun blk => y0 (bbox blk)) b bs in
  let bottom :=
    (1 # 2) * Qmax 0 (page_height - max_over (fun blk => y1 (bbox blk)) b bs) in
  (Qmin ITP left, Qmin ITP right, Qmin ITP top, Qmin ITP bottom).

(** ** Cells of a page *)

(** The non-empty cells of the tables that are members of a collection. *)
Definition table_cells (block : Block) : list Cell :=
  match block with
  | TextBlock _ _ => []
  | TableBlock _ _ cells =>
    List.filter (fun c => match c with EmptyCell => false | _ => true end)
                (concat cells)
  end.

Definition page_cells (bs : list Block) : list Cell := flat_map table_cells bs.

(** The non-empty cells reachable from a block or from a cell, at any
    depth of nesting. *)
Fixpoint cells_of_block (block : Block) : list Cell :=
  match block with
  | TextBlock _ _ => []
  | TableBlock _ _ cells => flat_map (flat_map cells_of_cell) cells
  end
with cells_of_cell (cell : Cell) : list Cell :=
  match cell with
  | EmptyCell => []
  | MkCell _ _ cell_blocks => cell :: flat_map cells_of_block cell_blocks
  end.

Definition reachable_cells (bs : list Block) : list Cell :=
  flat_map cells_of_block bs.

(** The call that [parse_vertical_spacing] makes for a cell. *)
Definition cell_calls (cell : Cell) : list Call :=
  match cell with
  | EmptyCell => []
  | MkCell (_, y0, _, y1) (w_top, _, w_bottom, _) cell_blocks =>
    [(y0 + w_top / 2, y1 - w_bottom / 2, cell_blocks)]
  end.

(** The block collection of a cell. *)
Definition cell_blocks_of (cell : Cell) : list Block :=
  match cell with
  | EmptyCell => []
  | MkCell _ _ cell_blocks => cell_blocks
  end.

(** Modelled from the spec: [Blocks.parse_vertical_spacing] is not in the
    sources.  Section 4.3, steps 1 to 3: within one scope, the space before
    the first block is its distance to the top of the scope, the space
    before a later block is its distance to the bottom of the previous
    sibling, and a negative gap counts as zero. *)
Definition set_before_space (space : Q) (block : Block) : Block :=
  match block with
  | TextBlock bb _ => TextBlock bb space
  | TableBlock bb _ cells => TableBlock bb space cells
  end.

Fixpoint space_before_from (ref_pos : Q) (bs : list Block) : list Block :=
  match bs with
  | [] => []
  | b :: bs' =>
    set_before_space (Qmax 0 (y0 (bbox b) - ref_pos)) b
      :: space_before_from (y1 (bbox b)) bs'
  end.

Definition Blocks_parse_vertical_spacing_spec (scope_top scope_bottom : Q)
  (bs : list Block) : list Block :=
  space_before_from scope_top bs.

(** ** Storing and plotting *)

(** The dict that [store] returns.  Every key is there; the [margin] key
    holds [None] as long as the margin has not been computed. *)
Record Stored : Type := mkStored {
  stored_width : Q;
  stored_height : Q;
  stored_margin : option Tuple4;
  stored_blocks : list Block;
  stored_rects : list Rect
}.

Section Store.

(** [Blocks.store] and [Rectangles.store]. *)
Variable Blocks_store : list Block -> list Block.
Variable Rectangles_store : list Rect -> list Rect.

(** [Layout.store] *)
Definition store (self : Layout) : Stored :=
  {| stored_width := width self;
     stored_height := height self;
     stored_margin := _margin self;
     stored_blocks := Blocks_store (blocks self);
     stored_rects := Rectangles_store (rects self) |}.

End Store.


(** What [plot] hands to the plotting code: a block or a rectangle shape. *)
Inductive PlotItem : Type :=
| PlotBlock (block : Block)
| PlotRect (rect : Rect).

(** The calls that [plot] makes, in order: [utils.new_page_with_margin
    (doc, width, height, margin, title)] and [item.plot (page, style,
    content)], where an argument left to its default is [None]. *)
Inductive DocEvent : Type :=
| NewPage (page_width page_height : Q) (margin_arg : option Tuple4)
          (title : string)
| PlotCall (item : PlotItem) (style content : option bool).

Section Plot.

(** [Block.is_explicit_table_block] and [Block.is_implicit_table_block]. *)
Variables is_explicit_table_block is_implicit_table_block : Block -> bool.

(** The objects that [plot] selects for a key. *)
Definition plot_objects (self : Layout) (key : string) : list PlotItem :=
  if String.eqb key "layout" then map PlotBlock (blocks self)
  else if String.eqb key "table" then
    map PlotBlock (List.filter is_explicit_table_block (blocks self))
  else if String.eqb key "implicit_table" then
    map PlotBlock (List.filter is_implicit_table_block (blocks self))
  else if String.eqb key "shape" then map PlotRect (rects self)
  else [].

(** The loop [for item in objects: item.plot(page, ...)] for a key. *)
Definition plot_calls (key : string) (objects : list PlotItem) : list DocEvent :=
  if String.eqb key "table" then
    map (fun item => PlotCall item (Some true) (Some false)) objects
  else if String.eqb key "implicit_table" then
    map (fun item => PlotCall item (Some false) (Some false)) objects
  else
    map (fun item => PlotCall item None None) objects.

(** [Layout.plot], on the calls received so far. *)
Definition plot (self : Layout) (title key : string) : M (list DocEvent) unit :=
  let objects := plot_objects self key in
  match objects with
  | [] => mret tt
  | _ :: _ =>
    _ ← modify (fun doc =>
           doc ++ [NewPage (width self) (height self) (margin self) title]);
    modify (fun doc => doc ++ plot_calls key objects)
  end.

End Plot.

(** ** What a pass keeps *)

(** Two cells, or two blocks, that differ at most in the content of cells. *)
Definition same_frame_cell (c c' : Cell) : Prop :=
  match c, c' with
  | EmptyCell, EmptyCell => True
  | MkCell bb bw _, MkCell bb' bw' _ => bb = bb' /\ bw = bw'
  | _, _ => False
  end.

Definition same_frame (b b' : Block) : Prop :=
  match b, b' with
  | TextBlock bb sp, TextBlock bb' sp' => bb = bb' /\ sp = sp'
  | TableBlock bb sp cells, TableBlock bb' sp' cells' =>
    bb = bb' /\ sp = sp' /\ Forall2 (Forall2 same_frame_cell) cells cells'
  | _, _ => False
  end.


(** ** Sample pages *)

Definition Tuple4_eq (m n : Tuple4) : Prop :=
  let '(a, b, c, d) := m in
  let '(a', b', c', d') := n in
  a == a' /\ b == b' /\ c == c' /\ d == d'.

Definition page_600_800 : Layout :=
  {| width := 600; height := 800;
     blocks := [TextBlock (mkBBox 50 60 550 100) 0;
                TextBlock (mkBBox 50 120 550 760) 0];
     _margin := None; rects := [] |}.


(** One block that starts left of the page origin. *)
Definition page_negative_x0 : Layout :=
  {| width := 600; height := 800;
     blocks := [TextBlock (mkBBox (-5) 60 550 100) 0];
     _margin := None; rects := [] |}.

(** A table inside a cell of a table. *)
Definition inner_text : Block := TextBlock (mkBBox 12 20 40 30) 0.

Definition inner_cell : Cell := MkCell (10, 10, 50, 50) (2, 2, 2, 2) [inner_text].

Definition inner_table : Block := TableBlock (mkBBox 10 10 50 50) 0 [[inner_cell]].

Definition outer_cell : Cell := MkCell (0, 0, 100, 100) (1, 1, 1, 1) [inner_table].

Definition outer_table : Block := TableBlock (mkBBox 0 0 100 100) 0 [[outer_cell]].

Definition page_nested_table : Layout :=
  {| width := 600; height := 800;
     blocks := [outer_table];
     _margin := Some (0, 0, 0, 0); rects := [] |}.

(** One isolated rectangle that carries a tag other than [-1]. *)
Definition page_one_rect : Layout :=
  {| width := 600; height := 800;
     blocks := [];
     _margin := None;
     rects := [mkRect (mkBBox 10 10 200 11) 10] |}.

(** The empty raw dict. *)
Definition raw_empty : Raw := mkRaw None None None None None.

(** Stand-ins for the collaborators that are not in the sources, for runs on
    the sample pages: a preprocessing that keeps every block, one group
    holding all the rects, helpers that find no table. *)
Definition preprocessing_keep_all : M (list Block) unit := mret tt.

Definition group_all (rs : list Rect) : list (list nat) :=
  match rs with
  | [] => []
  | _ :: _ => [seq 0 (length rs)]
  end.

Definition borders_none (group : list nat) : M (list Rect) bool := mret false.

Definition borders_all (group : list nat) : M (list Rect) bool :=
  _ ← modify (fun store =>
         fold_left (fun st i => alter (set_type 10) i st) group store);
  mret true.

Definition structure_none (group : list nat) : M (list Rect) (option Block) :=
  mret None.

(** The namespace of the module, had it also bound the names it calls. *)
Definition globals_with_helpers : list string :=
  module_globals
    ++ ["_set_table_borders"%string; "_parse_table_structure_from_rects"%string;
        "set_explicit_table_block"%string; "layout"%string].

(** A page whose one block keeps well away from every edge. *)
Definition page_centered : Layout :=
  {| width := 600; height := 800;
     blocks := [TextBlock (mkBBox 100 100 500 600) 0];
     _margin := None; rects := [] |}.

(** [page_600_800] with its margin computed. *)
Definition page_600_800_margin : Layout :=
  set_margin page_600_800 (Some (50, 48, 60, 20)).

(** Stand-ins that find a table in every group. *)
Definition structure_table (group : list nat)
  : M (list Rect) (option Block) :=
  mret (Some (TableBlock (mkBBox 10 10 200 11) 0 [])).

(** [page_600_800] with its two blocks in the other order. *)
Definition page_600_800_swapped : Layout :=
  {| width := 600; height := 800;
     blocks := [TextBlock (mkBBox 50 120 550 760) 0;
                TextBlock (mkBBox 50 60 550 100) 0];
     _margin := None; rects := [] |}.

(** Stand-ins for the tests of [plot]: every table block is explicit. *)
Definition explicit_if_table (b : Block) : bool := is_table_block b.

Definition never_implicit (b : Block) : bool := false.

(** * Properties *)

(** ** Python's [min] and [max] over a non-empty list *)

Lemma min2_cases (a b : Q) : (b < a /\ min2 a b = b) \/ (a <= b /\ min2 a b = a).
Proof. unfold min2. destruct (Qlt_le_dec b a); [left | right]; split; trivial. Qed.

Lemma max2_cases (a b : Q) : (a < b /\ max2 a b = b) \/ (b <= a /\ max2 a b = a).
Proof. unfold max2. destruct (Qlt_le_dec a b); [left | right]; split; trivial. Qed.

(** Case analysis on every [min2], [max2], [Qmin] and [Qmax] in sight,
    then linear arithmetic. *)
Ltac minmax_case :=
  match goal with
  | |- context [min2 ?a ?b] =>
    let H := fresh in let E := fresh in
    destruct (min2_cases a b) as [[H E] | [H E]]; rewrite E in *; clear E
  | _ : context [min2 ?a ?b] |- _ =>
    let H := fresh in let E := fresh in
    destruct (min2_cases a b) as [[H E] | [H E]]; rewrite E in *; clear E
  | |- context [max2 ?a ?b] =>
    let H := fresh in let E := fresh in
    destruct (max2_cases a b) as [[H E] | [H E]]; rewrite E in *; clear E
  | _ : context [max2 ?a ?b] |- _ =>
    let H := fresh in let E := fresh in
    destruct (max2_cases a b) as [[H E] | [H E]]; rewrite E in *; clear E
  | |- context [Qmin ?a ?b] =>
    let H := fresh in let E := fresh in let m := fresh "m" in
    destruct (Q.min_spec a b) as [[H E] | [H E]];
    set (m := Qmin a b) in *; clearbody m
  | _ : context [Qmin ?a ?b] |- _ =>
    let H := fresh in let E := fresh in let m := fresh "m" in
    destruct (Q.min_spec a b) as [[H E] | [H E]];
    set (m := Qmin a b) in *; clearbody m
  | |- context [Qmax ?a ?b] =>
    let H := fresh in let E := fresh in let m := fresh "m" in
    destruct (Q.max_spec a b) as [[H E] | [H E]];
    set (m := Qmax a b) in *; clearbody m
  | _ : context [Qmax ?a ?b] |- _ =>
    let H := fresh in let E := fresh in let m := fresh "m" in
    destruct (Q.max_spec a b) as [[H E] | [H E]];
    set (m := Qmax a b) in *; clearbody m
  end.

Ltac minmax_lra := repeat minmax_case; lra.

Lemma fold_min2_le_init (xs : list Q) (a : Q) : fold_left min2 xs a <= a.
Proof.
  revert a. induction xs as [| x xs IH]; intros a; simpl.
  - lra.
  - specialize (IH (min2 a x)). destruct (min2_cases a x) as [[? E] | [? E]];
      rewrite E in *; lra.
Qed.

Lemma fold_min2_le (xs : list Q) (a y : Q) :
  In y xs -> fold_left min2 xs a <= y.
Proof.
  revert a. induction xs as [| x xs IH]; intros a Hy; simpl.
  - destruct Hy.
  - destruct Hy as [-> | Hy]; [| now apply IH].
    pose proof (fold_min2_le_init xs (min2 a y)) as Hle.
    destruct (min2_cases a y) as [[? E] | [? E]]; rewrite E in *; lra.
Qed.

Lemma fold_min2_In (xs : list Q) (a : Q) : In (fold_left min2 xs a) (a :: xs).
Proof.
  revert a. induction xs as [| x xs IH]; intros a; simpl.
  - now left.
  - destruct (IH (min2 a x)) as [E | Hin]; [| right; now right].
    rewrite <- E. destruct (min2_cases a x) as [[_ ->] | [_ ->]]; auto.
Qed.

Lemma fold_max2_ge_init (xs : list Q) (a : Q) : a <= fold_left max2 xs a.
Proof.
  revert a. induction xs as [| x xs IH]; intros a; simpl.
  - lra.
  - specialize (IH (max2 a x)). destruct (max2_cases a x) as [[? E] | [? E]];
      rewrite E in *; lra.
Qed.

Lemma fold_max2_ge (xs : list Q) (a y : Q) :
  In y xs -> y <= fold_left max2 xs a.
Proof.
  revert a. induction xs as [| x xs IH]; intros a Hy; simpl.
  - destruct Hy.
  - destruct Hy as [-> | Hy]; [| now apply IH].
    pose proof (fold_max2_ge_init xs (max2 a y)) as Hle.
    destruct (max2_cases a y) as [[? E] | [? E]]; rewrite E in *; lra.
Qed.

Lemma fold_max2_In (xs : list Q) (a : Q) : In (fold_left max2 xs a) (a :: xs).
Proof.
  revert a. induction xs as [| x xs IH]; intros a; simpl.
  - now left.
  - destruct (IH (max2 a x)) as [E | Hin]; [| right; now right].
    rewrite <- E. destruct (max2_cases a x) as [[_ ->] | [_ ->]]; auto.
Qed.

(** The loop of [min] computes the minimum in the specification's sense. *)
Lemma fold_min2_min_over (f : Block -> Q) (bs : list Block) (b : Block) :
  fold_left min2 (map f bs) (f b) == min_over f b bs.
Proof.
  assert (Hlow : forall bs b y, In y (map f (b :: bs)) -> min_over f b bs <= y).
  { clear. induction bs as [| b' bs IH]; intros b y Hy; simpl in *.
    - destruct Hy as [<- | []]. lra.
    - pose proof (Q.le_min_l (f b) (min_over f b' bs)).
      pose proof (Q.le_min_r (f b) (min_over f b' bs)).
      destruct Hy as [<- | Hy]; [lra |].
      specialize (IH b' y Hy). lra. }
  assert (Hatt : forall bs b, exists y, In y (map f (b :: bs)) /\ y == min_over f b bs).
  { clear. induction bs as [| b' bs IH]; intros b; simpl.
    - exists (f b). split; [now left | reflexivity].
    - destruct (Q.min_spec (f b) (min_over f b' bs)) as [[_ E] | [_ E]].
      + exists (f b). split; [now left | now rewrite E].
      + destruct (IH b') as (y & Hy & Ey). exists y. split; [now right |].
        now rewrite E. }
  apply Qle_antisym.
  - destruct (Hatt bs b) as (y & [<- | Hy] & <-).
    + apply fold_min2_le_init.
    + now apply fold_min2_le.
  - apply Hlow. apply (fold_min2_In (map f bs) (f b)).
Qed.

Lemma fold_max2_max_over (f : Block -> Q) (bs : list Block) (b : Block) :
  fold_left max2 (map f bs) (f b) == max_over f b bs.
Proof.
  assert (Hupp : forall bs b y, In y (map f (b :: bs)) -> y <= max_over f b bs).
  { clear. induction bs as [| b' bs IH]; intros b y Hy; simpl in *.
    - destruct Hy as [<- | []]. lra.
    - pose proof (Q.le_max_l (f b) (max_over f b' bs)).
      pose proof (Q.le_max_r (f b) (max_over f b' bs)).
      destruct Hy as [<- | Hy]; [lra |].
      specialize (IH b' y Hy). lra. }
  assert (Hatt : forall bs b, exists y, In y (map f (b :: bs)) /\ y == max_over f b bs).
  { clear. induction bs as [| b' bs IH]; intros b; simpl.
    - exists (f b). split; [now left | reflexivity].
    - destruct (Q.max_spec (f b) (max_over f b' bs)) as [[_ E] | [_ E]].
      + destruct (IH b') as (y & Hy & Ey). exists y. split; [now right |].
        now rewrite E.
      + exists (f b). split; [now left | now rewrite E]. }
  apply Qle_antisym.
  - apply Hupp. apply (fold_max2_In (map f bs) (f b)).
  - destruct (Hatt bs b) as (y & [<- | Hy] & <-).
    + apply fold_max2_ge_init.
    + now apply fold_max2_ge.
Qed.

(** ** Margin *)

Section MarginFacts.

Variables ITP DM : Q.

(** The four values that [page_margin] stores for the blocks [b :: bs]. *)
Lemma page_margin_nonempty (self : Layout) (b : Block) (bs : list Block) :
  blocks self = b :: bs ->
  let left := fold_left min2 (map x0 (map bbox bs)) (x0 (bbox b)) in
  let x_max := fold_left max2 (map x1 (map bbox bs)) (x1 (bbox b)) in
  let top := fold_left min2 (map y0 (map bbox bs)) (y0 (bbox b)) in
  let y_max := fold_left max2 (map y1 (map bbox bs)) (y1 (bbox b)) in
  page_margin ITP DM self
  = (set_margin self
       (Some (min2 ITP left,
              min2 ITP (max2 (min2 (width self - x_max - DM * 2) left) 0),
              min2 ITP top,
              min2 ITP (max2 (height self - y_max) 0 * (1 # 2)))),
     Ok tt).
Proof.
  intros Hbs. unfold page_margin, mbind, M_bind, get_state.
  rewrite Hbs. reflexivity.
Qed.

(** [page_margin] returns on every layout and changes nothing but the
    margin. *)
Lemma page_margin_returns (self : Layout) :
  exists m, page_margin ITP DM self = (set_margin self (Some m), Ok tt).
Proof.
  destruct (blocks self) as [| b bs] eqn:Hbs.
  - eexists. unfold page_margin, mbind, M_bind, get_state. rewrite Hbs.
    reflexivity.
  - eexists. apply (page_margin_nonempty self b bs Hbs).
Qed.

(** C1, as amended.  On a non-empty block collection, with a non-negative
    normal margin [ITP]: every margin value is at most [ITP]; the right and
    the bottom margins are non-negative; when no block starts left of the
    page origin, the left margin is non-negative and the right margin does
    not exceed it; when no block starts above the page origin, the top
    margin is non-negative. *)
Theorem page_margin_bounds (self : Layout) :
  0 <= ITP ->
  blocks self <> [] ->
  exists left right top bottom,
    page_margin ITP DM self
    = (set_margin self (Some (left, right, top, bottom)), Ok tt)
    /\ (left <= ITP /\ right <= ITP /\ top <= ITP /\ bottom <= ITP)
    /\ (0 <= right /\ 0 <= bottom)
    /\ ((forall blk, In blk (blocks self) -> 0 <= x0 (bbox blk)) ->
        0 <= left /\ right <= left)
    /\ ((forall blk, In blk (blocks self) -> 0 <= y0 (bbox blk)) ->
        0 <= top).
Proof.
  intros HITP Hne.
  destruct (blocks self) as [| b bs] eqn:Hbs; [congruence | clear Hne].
  do 4 eexists. split; [apply (page_margin_nonempty self b bs Hbs) |].
  set (left := fold_left min2 (map x0 (map bbox bs)) (x0 (bbox b))).
  set (top := fold_left min2 (map y0 (map bbox bs)) (y0 (bbox b))).
  set (x_max := fold_left max2 (map x1 (map bbox bs)) (x1 (bbox b))).
  set (y_max := fold_left max2 (map y1 (map bbox bs)) (y1 (bbox b))).
  assert (Hleft : (forall blk, In blk (b :: bs) -> 0 <= x0 (bbox blk)) -> 0 <= left).
  { intros Hall.
    destruct (fold_min2_In (map x0 (map bbox bs)) (x0 (bbox b))) as [E | Hin].
    - fold left in E. rewrite <- E. apply Hall. now left.
    - fold left in Hin. rewrite map_map in Hin. apply in_map_iff in Hin.
      destruct Hin as (blk & E & Hblk). rewrite <- E. apply Hall. now right. }
  assert (Htop : (forall blk, In blk (b :: bs) -> 0 <= y0 (bbox blk)) -> 0 <= top).
  { intros Hall.
    destruct (fold_min2_In (map y0 (map bbox bs)) (y0 (bbox b))) as [E | Hin].
    - fold top in E. rewrite <- E. apply Hall. now left.
    - fold top in Hin. rewrite map_map in Hin. apply in_map_iff in Hin.
      destruct Hin as (blk & E & Hblk). rewrite <- E. apply Hall. now right. }
  split; [repeat split; minmax_lra |].
  split; [split; minmax_lra |].
  split.
  - intros Hall. specialize (Hleft Hall). split; minmax_lra.
  - intros Hall. specialize (Htop Hall). minmax_lra.
Qed.

(** C2.  On the blocks [b :: bs], [page_margin] stores the margin of the
    reference algorithm: left = min x0; right = max(0, min(page_width - max
    x1 - 2 * tolerance, left)); top = min y0; bottom = 0.5 * max(0,
    page_height - max y1); each capped at the normal margin.  The values
    are equal as rationals. *)
Theorem page_margin_refines_reference
  (page_width page_height : Q) (b : Block) (bs : list Block)
  (m0 : option Tuple4) (rs : list Rect) :
  let self := mkLayout page_width page_height (b :: bs) m0 rs in
  exists m,
    page_margin ITP DM self = (set_margin self (Some m), Ok tt)
    /\ Tuple4_eq m (margin_reference ITP DM page_width page_height b bs).
Proof.
  intros self. eexists. split.
  - apply (page_margin_nonempty self b bs). reflexivity.
  - unfold Tuple4_eq, margin_reference. rewrite !map_map. cbn [width height self].
    pose proof (fold_min2_min_over (fun blk => x0 (bbox blk)) bs b) as E1.
    pose proof (fold_max2_max_over (fun blk => x1 (bbox blk)) bs b) as E2.
    pose proof (fold_min2_min_over (fun blk => y0 (bbox blk)) bs b) as E3.
    pose proof (fold_max2_max_over (fun blk => y1 (bbox blk)) bs b) as E4.
    cbv beta in *.
    set (l1 := fold_left min2 _ _) in *. set (l2 := min_over _ _ _) in *.
    set (r1 := fold_left max2 _ _) in *. set (r2 := max_over _ _ _) in *.
    set (t1 := fold_left min2 _ _) in *. set (t2 := min_over _ _ _) in *.
    set (b1 := fold_left max2 _ _) in *. set (b2 := max_over _ _ _) in *.
    clearbody l1 l2 r1 r2 t1 t2 b1 b2.
    repeat split.
    + minmax_lra.
    + minmax_lra.
    + minmax_lra.
    + minmax_lra.
Qed.

(** The run on an empty block collection. *)
Lemma page_margin_no_blocks (self : Layout) :
  blocks self = [] ->
  page_margin ITP DM self = (set_margin self (Some (ITP, ITP, ITP, ITP)), Ok tt).
Proof.
  intros Hbs. unfold page_margin, mbind, M_bind, get_state. rewrite Hbs.
  reflexivity.
Qed.

(** C3.  On an empty block collection [page_margin] returns and stores the
    normal margin [ITP] on all four sides. *)
Theorem page_margin_empty (self : Layout) :
  blocks self = [] ->
  page_margin ITP DM self = (set_margin self (Some (ITP, ITP, ITP, ITP)), Ok tt)
  /\ margin (fst (page_margin ITP DM self)) = Some (ITP, ITP, ITP, ITP).
Proof.
  intros Hbs. rewrite (page_margin_no_blocks self Hbs). split; reflexivity.
Qed.

(** The margin already stored has no influence on the margin computed. *)
Lemma page_margin_ignores_margin (self : Layout) (m : option Tuple4) :
  page_margin ITP DM (set_margin self m)
  = (set_margin self (margin (fst (page_margin ITP DM self))),
     snd (page_margin ITP DM self)).
Proof.
  destruct (blocks self) as [| b bs] eqn:Hbs.
  - rewrite (page_margin_no_blocks self Hbs).
    rewrite (page_margin_no_blocks (set_margin self m) Hbs).
    reflexivity.
  - rewrite (page_margin_nonempty self b bs Hbs).
    rewrite (page_margin_nonempty (set_margin self m) b bs Hbs).
    reflexivity.
Qed.

(** C8.  Running [page_margin] a second time, on the layout the first run
    has left, returns and leaves that layout as it is: the same margin
    value, and nothing else changed. *)
Theorem page_margin_idempotent (self : Layout) :
  exists once,
    page_margin ITP DM self = (once, Ok tt)
    /\ page_margin ITP DM once = (once, Ok tt)
    /\ margin (fst (page_margin ITP DM once)) = margin once.
Proof.
  destruct (page_margin_returns self) as (m & E).
  exists (set_margin self (Some m)).
  assert (E2 : page_margin ITP DM (set_margin self (Some m))
               = (set_margin self (Some m), Ok tt)).
  { rewrite page_margin_ignores_margin, E. reflexivity. }
  split; [exact E |]. split; [exact E2 | rewrite E2; reflexivity].
Qed.

End MarginFacts.

(** A block that starts left of the page origin gets a negative left
    margin, and the right margin then exceeds the left one. *)
Lemma page_margin_negative_left :
  ~ (forall self : Layout,
       blocks self <> [] ->
       exists left right top bottom,
         margin (fst (page_margin 72 1 self)) = Some (left, right, top, bottom)
         /\ (0 <= left <= 72 /\ 0 <= right <= 72
             /\ 0 <= top <= 72 /\ 0 <= bottom <= 72)
         /\ right <= left).
Proof.
  intros claim.
  destruct (claim page_negative_x0) as (left & right & top & bottom & E & B & _).
  - discriminate.
  - vm_compute in E. injection E as <- <- <- <-.
    destruct B as [[Hneg _] _]. revert Hneg. vm_compute. intros Hneg. now apply Hneg.
Qed.

Lemma page_margin_bounds_witness :
  (0 <= 72
   /\ blocks page_600_800 <> []
   /\ (forall blk, In blk (blocks page_600_800) -> 0 <= x0 (bbox blk))
   /\ (forall blk, In blk (blocks page_600_800) -> 0 <= y0 (bbox blk)))
  /\ exists left right top bottom,
       page_margin 72 1 page_600_800
       = (set_margin page_600_800 (Some (left, right, top, bottom)), Ok tt)
       /\ (left <= 72 /\ right <= 72 /\ top <= 72 /\ bottom <= 72)
       /\ (0 <= right /\ 0 <= bottom)
       /\ ((forall blk, In blk (blocks page_600_800) -> 0 <= x0 (bbox blk)) ->
           0 <= left /\ right <= left)
       /\ ((forall blk, In blk (blocks page_600_800) -> 0 <= y0 (bbox blk)) ->
           0 <= top).
Proof.
  split.
  - split; [discriminate |]. split; [discriminate |].
    split; intros blk [<- | [<- | []]]; discriminate.
  - apply (page_margin_bounds 72 1 page_600_800); discriminate.
Defined.

Lemma page_margin_empty_witness :
  blocks (Layout_init raw_empty) = []
  /\ page_margin 72 1 (Layout_init raw_empty)
     = (set_margin (Layout_init raw_empty) (Some (72, 72, 72, 72)), Ok tt)
  /\ margin (fst (page_margin 72 1 (Layout_init raw_empty)))
     = Some (72, 72, 72, 72).
Proof.
  split; [reflexivity |].
  apply (page_margin_empty 72 1 (Layout_init raw_empty)). reflexivity.
Defined.

(** ** Names that the module does not bind *)

Lemma load_global_unbound {S : Type} (globals : list string) (name : string)
  (s : S) :
  existsb (String.eqb name) globals = false ->
  load_global globals name s = (s, Raise (NameError name)).
Proof. intros E. unfold load_global. rewrite E. reflexivity. Qed.

Lemma load_global_bound {S : Type} (globals : list string) (name : string)
  (s : S) :
  existsb (String.eqb name) globals = true ->
  load_global globals name s = (s, Ok tt).
Proof. intros E. unfold load_global. rewrite E. reflexivity. Qed.

Section ParseFacts.

Variables ITP DM : Q.
Variable Blocks_preprocessing : M (list Block) unit.
Variables parse_explicit_table parse_implicit_table parse_text_format
  parse_vertical_spacing_function : M Layout unit.

(** C4 fails on the code.  In the module as it is written, [parse] raises
    on every layout.  When the preprocessing of the blocks returns, the
    margin is computed and stored, and the next statement raises
    [NameError] for [parse_explicit_table], a name the module never binds;
    nothing after it is run. *)
Theorem parse_never_completes (self layout : Layout) :
  exists w e,
    parse ITP DM module_globals Blocks_preprocessing
      parse_explicit_table parse_implicit_table parse_text_format
      parse_vertical_spacing_function (self, layout)
    = (w, Raise e)
    /\ (snd (Blocks_preprocessing (blocks self)) = Ok tt ->
        e = NameError "parse_explicit_table"
        /\ snd w = layout
        /\ fst (page_margin ITP DM
                  (set_blocks self (fst (Blocks_preprocessing (blocks self)))))
           = fst w).
Proof.
  unfold parse, mbind, M_bind, on_self, preprocess_blocks. cbn [fst snd].
  destruct (Blocks_preprocessing (blocks self)) as [bs [[] | e]].
  - destruct (page_margin_returns ITP DM (set_blocks self bs)) as (m & E).
    cbn [fst snd]. rewrite E. rewrite load_global_unbound by reflexivity.
    eexists _, _. split; [reflexivity |]. intros _. cbn [fst snd].
    repeat split.
  - eexists _, _. split; [reflexivity |]. cbn [snd]. discriminate.
Qed.

End ParseFacts.

(** The run of [parse] on the layout built from the empty raw dict. *)
Example parse_empty_page (layout : Layout) :
  parse 72 1 module_globals preprocessing_keep_all
    (mret tt) (mret tt) (mret tt) (mret tt) (Layout_init raw_empty, layout)
  = ((set_margin (Layout_init raw_empty) (Some (72, 72, 72, 72)), layout),
     Raise (NameError "parse_explicit_table")).
Proof. reflexivity. Qed.

(** ** Table structure from rects *)

(** After the reset loop, a rect of the group is unclassified and a rect
    outside the group is as it was. *)
Lemma reset_types_lookup (group : list nat) (store : list Rect) (i : nat)
  (rect : Rect) :
  reset_types group store !! i = Some rect ->
  (In i group -> type rect = (-1)%Z)
  /\ (~ In i group -> store !! i = Some rect).
Proof.
  unfold reset_types. revert store.
  induction group as [| g group IH]; intros store Hlook; simpl in *.
  - split; [intros [] | intros _; exact Hlook].
  - destruct (IH _ Hlook) as [Hin Hout]. split.
    + intros [-> | Hi].
      * destruct (in_dec Nat.eq_dec i group) as [Hi | Hi]; [now apply Hin |].
        specialize (Hout Hi). rewrite list_lookup_alter_eq in Hout.
        destruct (store !! i) as [r0 |]; simpl in Hout; [| discriminate].
        injection Hout as <-. reflexivity.
      * now apply Hin.
    + intros Hni. rewrite <- (list_lookup_alter_ne (set_type (-1)) store g i).
      * apply Hout. intros Hi. apply Hni. now right.
      * intros ->. apply Hni. now left.
Qed.

Lemma reset_types_length (group : list nat) (store : list Rect) :
  length (reset_types group store) = length store.
Proof.
  unfold reset_types. revert store.
  induction group as [| g group IH]; intros store; simpl; [reflexivity |].
  rewrite IH. apply length_alter.
Qed.

Section TableStructureFacts.

Variable Rectangles_group : list Rect -> list (list nat).
Variable _set_table_borders : list nat -> M (list Rect) bool.
Variable _parse_table_structure_from_rects :
  list nat -> M (list Rect) (option Block).
Variable set_explicit_table_block : Block -> Block.

(** C5 fails on the code.  In the module as it is written, as soon as
    [self.rects] has one group the method raises [NameError] for
    [_set_table_borders], a name the module never binds, before any rect is
    examined: no rect is reset, whatever tag it carries. *)
Theorem parse_table_structure_from_rects_raises
  (self layout : Layout) (group : list nat) (groups : list (list nat)) :
  Rectangles_group (rects self) = group :: groups ->
  parse_table_structure_from_rects module_globals Rectangles_group
    _set_table_borders _parse_table_structure_from_rects
    set_explicit_table_block (self, layout)
  = ((self, layout), Raise (NameError "_set_table_borders")).
Proof.
  intros Hg. unfold parse_table_structure_from_rects, mbind, M_bind, get_state.
  cbn [fst]. rewrite Hg. reflexivity.
Qed.

(** X11.  When [self.rects] has no group, the method returns [False] and
    touches nothing, whatever names the module binds: no helper name is
    read. *)
Lemma parse_table_structure_from_rects_no_group (globals : list string)
  (self layout : Layout) :
  Rectangles_group (rects self) = [] ->
  parse_table_structure_from_rects globals Rectangles_group
    _set_table_borders _parse_table_structure_from_rects
    set_explicit_table_block (self, layout)
  = ((self, layout), Ok false).
Proof.
  intros Hg. unfold parse_table_structure_from_rects, mbind, M_bind, get_state.
  cbn [fst]. rewrite Hg. reflexivity.
Qed.

(** X12.  The loop body, had the name [_set_table_borders] been bound.  A
    group that [_set_table_borders] refuses is skipped: no table is added,
    the rects are left as [_set_table_borders] left them, and no other
    helper name is read. *)
Lemma check_group_skipped (globals : list string) (self layout : Layout)
  (tables : list Block) (group : list nat) (store : list Rect) :
  existsb (String.eqb "_set_table_borders") globals = true ->
  _set_table_borders group (rects self) = (store, Ok false) ->
  check_group globals _set_table_borders _parse_table_structure_from_rects
    set_explicit_table_block tables group (self, layout)
  = ((set_rects self store, layout), Ok tables).
Proof.
  intros Hb Hs. unfold check_group, mbind, M_bind.
  rewrite load_global_bound by exact Hb.
  unfold on_rects, on_self. cbn [fst snd]. rewrite Hs. reflexivity.
Qed.

(** A group that [_set_table_borders] accepts and whose structure cannot be
    parsed yields no table, and each of its rects is unclassified
    afterwards. *)
Lemma check_group_reset (globals : list string) (self layout : Layout)
  (tables : list Block) (group : list nat) (store store' : list Rect) :
  existsb (String.eqb "_set_table_borders") globals = true ->
  existsb (String.eqb "_parse_table_structure_from_rects") globals = true ->
  _set_table_borders group (rects self) = (store, Ok true) ->
  _parse_table_structure_from_rects group store = (store', Ok None) ->
  check_group globals _set_table_borders _parse_table_structure_from_rects
    set_explicit_table_block tables group (self, layout)
  = ((set_rects self (reset_types group store'), layout), Ok tables)
  /\ forall i rect,
       In i group -> reset_types group store' !! i = Some rect ->
       type rect = (-1)%Z.
Proof.
  intros Hb1 Hb2 Hs Hp. split.
  - unfold check_group, mbind, M_bind.
    rewrite load_global_bound by exact Hb1.
    unfold on_rects, on_self. cbn [fst snd]. rewrite Hs. cbn [negb fst snd].
    rewrite load_global_bound by exact Hb2.
    cbn [fst snd rects set_rects]. rewrite Hp. reflexivity.
  - intros i rect Hi Hlook. now apply (reset_types_lookup group store' i rect).
Qed.

End TableStructureFacts.

Lemma parse_table_structure_from_rects_raises_witness :
  group_all (rects page_one_rect) = [0%nat] :: []
  /\ parse_table_structure_from_rects module_globals group_all
       borders_none structure_none (fun t => t) (page_one_rect, page_one_rect)
     = ((page_one_rect, page_one_rect),
        Raise (NameError "_set_table_borders")).
Proof.
  split; [reflexivity |].
  apply (parse_table_structure_from_rects_raises group_all borders_none
           structure_none (fun t => t) page_one_rect page_one_rect [0%nat] []).
  reflexivity.
Defined.

(** ** Vertical spacing *)

Lemma for_each_spec {A : Type} (body : A -> A * list Call) (xs : list A) :
  for_each body xs
  = ((fun x => fst (body x)) <$> xs, flat_map (fun x => snd (body x)) xs).
Proof.
  induction xs as [| x xs IH]; simpl; [reflexivity |].
  rewrite IH. destruct (body x) as [x' calls]. reflexivity.
Qed.

Lemma flat_map_filter_nil {A B : Type} (f : A -> list B) (p : A -> bool)
  (xs : list A) :
  (forall x, p x = false -> f x = []) ->
  flat_map f (List.filter p xs) = flat_map f xs.
Proof.
  intros Hp. induction xs as [| x xs IH]; simpl; [reflexivity |].
  destruct (p x) eqn:E; simpl; rewrite IH; [reflexivity |].
  now rewrite (Hp x E).
Qed.

Lemma flat_map_concat {A B : Type} (f : A -> list B) (xss : list (list A)) :
  flat_map f (concat xss) = flat_map (flat_map f) xss.
Proof.
  induction xss as [| xs xss IH]; simpl; [reflexivity |].
  now rewrite flat_map_app, IH.
Qed.

Lemma flat_map_flat_map {A B C : Type} (f : B -> list C) (g : A -> list B)
  (xs : list A) :
  flat_map f (flat_map g xs) = flat_map (fun x => flat_map f (g x)) xs.
Proof.
  induction xs as [| x xs IH]; simpl; [reflexivity |].
  now rewrite flat_map_app, IH.
Qed.

Section VerticalSpacingFacts.

Variable Bpvs : Q -> Q -> list Block -> list Block.

Lemma spacing_in_cell_calls (cell : Cell) :
  snd (spacing_in_cell Bpvs cell) = cell_calls cell.
Proof.
  destruct cell as [| [[[xa ya] xb] yb] [[[wt wr] wb] wl] cbs]; reflexivity.
Qed.

Lemma spacing_in_table_calls (block : Block) :
  snd (spacing_in_table Bpvs block) = flat_map cell_calls (table_cells block).
Proof.
  destruct block as [bb sp | bb sp cells]; [reflexivity |].
  unfold spacing_in_table, table_cells. rewrite for_each_spec. cbn [snd].
  rewrite flat_map_filter_nil by (intros [| ? ? ?]; [reflexivity | discriminate]).
  rewrite flat_map_concat. apply flat_map_ext. intros row.
  rewrite for_each_spec. cbn [snd]. apply flat_map_ext, spacing_in_cell_calls.
Qed.

(** What a run leaves and returns, once the margin is there. *)
Lemma parse_vertical_spacing_run (self : Layout) (ml mr top bottom : Q) :
  margin self = Some (ml, mr, top, bottom) ->
  let page_blocks := Bpvs top (height self - bottom) (blocks self) in
  parse_vertical_spacing Bpvs self
  = (set_blocks self ((fun b => fst (spacing_in_table Bpvs b)) <$> page_blocks),
     Ok ((top, height self - bottom, blocks self)
           :: flat_map cell_calls (page_cells page_blocks))).
Proof.
  intros Hm page_blocks.
  unfold parse_vertical_spacing, mbind, M_bind, get_state.
  rewrite Hm. fold page_blocks. rewrite for_each_spec.
  unfold put_state, mret, M_ret, page_cells. rewrite flat_map_flat_map.
  do 3 f_equal. apply flat_map_ext, spacing_in_table_calls.
Qed.

(** C6.  Once the margin is there, the method returns, and for every table
    block of the page collection (as the page-level pass has left it) and
    every non-empty cell of that table, with raw box (_, y0, _, y1) and
    border widths (w_top, _, w_bottom, _): the cell's own collection
    receives the call with bounds y0 + w_top / 2 and y1 - w_bottom / 2, and
    the cell, at its place in the table, holds the outcome of that call.
    The bounds are made of the cell's own box and borders only. *)
Theorem parse_vertical_spacing_cell_scope (self : Layout)
  (ml mr top bottom : Q) :
  margin self = Some (ml, mr, top, bottom) ->
  let page_blocks := Bpvs top (height self - bottom) (blocks self) in
  exists final calls,
    parse_vertical_spacing Bpvs self = (final, Ok calls)
    /\ forall (i : nat) bb sp (cells : list (list Cell)),
         page_blocks !! i = Some (TableBlock bb sp cells) ->
         exists cells' : list (list Cell),
           blocks final !! i = Some (TableBlock bb sp cells')
           /\ forall (r c : nat) (row : list Cell)
                     xa ya xb yb wt wr wb wl cell_blocks,
                cells !! r = Some row ->
                row !! c = Some (MkCell (xa, ya, xb, yb) (wt, wr, wb, wl)
                                        cell_blocks) ->
                In (ya + wt / 2, yb - wb / 2, cell_blocks) calls
                /\ exists row' : list Cell,
                     cells' !! r = Some row'
                     /\ row' !! c
                        = Some (MkCell (xa, ya, xb, yb) (wt, wr, wb, wl)
                                  (Bpvs (ya + wt / 2) (yb - wb / 2)
                                        cell_blocks)).
Proof.
  intros Hm page_blocks.
  eexists _, _. split; [apply (parse_vertical_spacing_run self ml mr top bottom Hm) |].
  fold page_blocks. intros i bb sp cells Hi. cbn [blocks set_blocks].
  rewrite list_lookup_fmap, Hi. cbn [fmap option_fmap option_map].
  unfold spacing_in_table at 1. rewrite for_each_spec. cbn [fst].
  eexists. split; [reflexivity |].
  intros r c row xa ya xb yb wt wr wb wl cell_blocks Hr Hc. split.
  - right. apply in_flat_map.
    exists (MkCell (xa, ya, xb, yb) (wt, wr, wb, wl) cell_blocks).
    split; [| now left].
    unfold page_cells. apply in_flat_map.
    exists (TableBlock bb sp cells). split.
    + apply list_elem_of_In, list_elem_of_lookup. now exists i.
    + unfold table_cells. apply filter_In. split; [| reflexivity].
      apply in_concat. exists row. split.
      * apply list_elem_of_In, list_elem_of_lookup. now exists r.
      * apply list_elem_of_In, list_elem_of_lookup. now exists c.
  - rewrite list_lookup_fmap, Hr. cbn [fmap option_fmap option_map].
    eexists. split; [reflexivity |].
    rewrite for_each_spec. cbn [fst]. rewrite list_lookup_fmap, Hc.
    reflexivity.
Qed.

Lemma table_cells_reachable (block : Block) (cell : Cell) :
  In cell (table_cells block) -> In cell (cells_of_block block).
Proof.
  destruct block as [bb sp | bb sp cells]; [intros [] |].
  unfold table_cells. rewrite filter_In, in_concat.
  intros [(row & Hrow & Hcell) Hne]. cbn [cells_of_block].
  apply in_flat_map. exists row. split; [exact Hrow |].
  apply in_flat_map. exists cell. split; [exact Hcell |].
  destruct cell; [discriminate | now left].
Qed.

(** Without a margin the method raises at its first statement and leaves
    the layout as it is. *)
Lemma parse_vertical_spacing_without_margin (self : Layout) :
  margin self = None ->
  parse_vertical_spacing Bpvs self
  = (self, Raise (TypeError "'NoneType' object is not subscriptable")).
Proof.
  intros Hm. unfold parse_vertical_spacing, mbind, M_bind, get_state.
  rewrite Hm. reflexivity.
Qed.

(** C7, as amended.  The method returns or raises on every layout.
    Without a margin it raises at once.  With a margin it returns, and the
    calls it makes are: one for the page collection, then one for each
    non-empty cell of each table that is a member of the page collection,
    in order, and no other.  Each of these cells is reachable from the
    page collection.  Cells of tables nested in a cell are not among
    them. *)
Theorem parse_vertical_spacing_calls (self : Layout) :
  (margin self = None
   /\ parse_vertical_spacing Bpvs self
      = (self, Raise (TypeError "'NoneType' object is not subscriptable")))
  \/ (exists ml mr top bottom final calls,
        margin self = Some (ml, mr, top, bottom)
        /\ parse_vertical_spacing Bpvs self = (final, Ok calls)
        /\ let page_blocks := Bpvs top (height self - bottom) (blocks self) in
           calls = (top, height self - bottom, blocks self)
                     :: flat_map cell_calls (page_cells page_blocks)
           /\ forall cell, In cell (page_cells page_blocks) ->
                           In cell (reachable_cells page_blocks)).
Proof.
  destruct (margin self) as [[[[ml mr] top] bottom] |] eqn:Hm.
  - right. exists ml, mr, top, bottom. eexists _, _.
    split; [reflexivity |].
    split; [apply (parse_vertical_spacing_run self ml mr top bottom Hm) |].
    split; [reflexivity |].
    intros cell. unfold page_cells, reachable_cells. rewrite !in_flat_map.
    intros (block & Hb & Hc). exists block. split; [exact Hb |].
    now apply table_cells_reachable.
  - left. split; [reflexivity |].
    now apply parse_vertical_spacing_without_margin.
Qed.

(** C9.  On a freshly constructed layout the [margin] property is [None],
    and [parse_vertical_spacing] raises [TypeError] when it subscripts it;
    nothing is computed. *)
Theorem fresh_layout_has_no_margin (raw : Raw) :
  margin (Layout_init raw) = None
  /\ parse_vertical_spacing Bpvs (Layout_init raw)
     = (Layout_init raw,
        Raise (TypeError "'NoneType' object is not subscriptable")).
Proof.
  split; [reflexivity |].
  apply parse_vertical_spacing_without_margin. reflexivity.
Qed.

End VerticalSpacingFacts.

(** ** Construction *)

(** C10.  Construction leaves the rectangle collection empty whatever the
    raw dict holds under its rects key (and under its margin key), and a
    missing width or height key gives 0. *)
Theorem Layout_init_ignores_rects (w h : option Q) (bs : option (list Block))
  (m : option Tuple4) (rs : option (list Rect)) :
  rects (Layout_init (mkRaw w h bs m rs)) = []
  /\ Layout_init (mkRaw w h bs m rs) = Layout_init (mkRaw w h bs None None)
  /\ width (Layout_init (mkRaw None h bs m rs)) = 0
  /\ height (Layout_init (mkRaw w None bs m rs)) = 0.
Proof. repeat split. Qed.

(** ** Runs on the sample pages *)

(** The margin of the page with a block at x0 = -5. *)
Example page_margin_negative_x0 :
  margin (fst (page_margin 72 1 page_negative_x0))
  = Some (-5, 0, 60, 72).
Proof. reflexivity. Qed.

(** The scenario of the specification: page 600 x 800, two blocks. *)
Example page_margin_scenario :
  exists m, page_margin 72 1 page_600_800 = (set_margin page_600_800 (Some m), Ok tt)
            /\ Tuple4_eq m (50, 48, 60, 20).
Proof. eexists. split; [vm_compute; reflexivity | vm_compute; intuition discriminate]. Qed.

Lemma parse_vertical_spacing_cell_scope_witness :
  margin page_nested_table = Some (0, 0, 0, 0)
  /\ exists final calls,
       parse_vertical_spacing Blocks_parse_vertical_spacing_spec
         page_nested_table = (final, Ok calls)
       /\ forall (i : nat) bb sp (cells : list (list Cell)),
            Blocks_parse_vertical_spacing_spec 0 (height page_nested_table - 0)
              (blocks page_nested_table) !! i
            = Some (TableBlock bb sp cells) ->
            exists cells' : list (list Cell),
              blocks final !! i = Some (TableBlock bb sp cells')
              /\ forall (r c : nat) (row : list Cell)
                        xa ya xb yb wt wr wb wl cell_blocks,
                   cells !! r = Some row ->
                   row !! c = Some (MkCell (xa, ya, xb, yb) (wt, wr, wb, wl)
                                           cell_blocks) ->
                   In (ya + wt / 2, yb - wb / 2, cell_blocks) calls
                   /\ exists row' : list Cell,
                        cells' !! r = Some row'
                        /\ row' !! c
                           = Some (MkCell (xa, ya, xb, yb) (wt, wr, wb, wl)
                                     (Blocks_parse_vertical_spacing_spec
                                        (ya + wt / 2) (yb - wb / 2)
                                        cell_blocks)).
Proof.
  split; [reflexivity |].
  apply (parse_vertical_spacing_cell_scope Blocks_parse_vertical_spacing_spec
           page_nested_table 0 0 0 0).
  reflexivity.
Defined.

(** The calls made on the page with a table inside a table: the page
    collection and the collection of the outer cell. *)
Example nested_table_calls :
  snd (parse_vertical_spacing Blocks_parse_vertical_spacing_spec
         page_nested_table)
  = Ok [(0, 800 - 0, [outer_table]); (0 + 1 / 2, 100 - 1 / 2, [inner_table])].
Proof. reflexivity. Qed.

(** The cell of the inner table is reachable from the page collection and
    is not empty, and its collection receives no call: the reach of the
    method ends at the cells of the tables of the page collection. *)
Lemma nested_cell_not_reached :
  ~ (forall (self final : Layout) (calls : list Call),
       parse_vertical_spacing Blocks_parse_vertical_spacing_spec self
       = (final, Ok calls) ->
       forall cell, In cell (reachable_cells (blocks self)) ->
       forall call, In call (cell_calls cell) -> In call calls).
Proof.
  intros claim.
  assert (Hin : In (10 + 2 / 2, 50 - 2 / 2, [inner_text])
                   [(0, 800 - 0, [outer_table]);
                    (0 + 1 / 2, 100 - 1 / 2, [inner_table])]).
  { apply (claim page_nested_table _ _ eq_refl inner_cell).
    - right. left. reflexivity.
    - left. reflexivity. }
  destruct Hin as [E | [E | []]]; discriminate E.
Qed.

(** On that page the text block of the inner cell keeps the space it had,
    0, where a call on its collection would have given 20 - (10 + 2 / 2). *)
Example nested_text_untouched :
  In inner_cell
     (reachable_cells
        (blocks (fst (parse_vertical_spacing Blocks_parse_vertical_spacing_spec
                        page_nested_table))))
  /\ Blocks_parse_vertical_spacing_spec (10 + 2 / 2) (50 - 2 / 2) [inner_text]
     <> [inner_text].
Proof.
  split.
  - right. left. reflexivity.
  - discriminate.
Qed.

(** The isolated rect of [page_one_rect] keeps its tag 10 in the module as
    it is written. *)
Example one_rect_keeps_its_tag :
  let run :=
    parse_table_structure_from_rects module_globals group_all
      borders_all structure_none (fun t => t) (page_one_rect, page_one_rect) in
  snd run = Raise (NameError "_set_table_borders")
  /\ map type (rects (fst (fst run))) = [10%Z].
Proof. split; reflexivity. Qed.

(** Had the names been bound: a group whose structure cannot be parsed is
    reset, and a group that [_set_table_borders] refuses is left alone. *)
Example one_rect_reset_with_helpers :
  let run :=
    parse_table_structure_from_rects globals_with_helpers group_all
      borders_all structure_none (fun t => t) (page_one_rect, page_one_rect) in
  snd run = Ok false
  /\ map type (rects (fst (fst run))) = [(-1)%Z].
Proof. split; reflexivity. Qed.

Example one_rect_skipped_with_helpers :
  let run :=
    parse_table_structure_from_rects globals_with_helpers group_all
      borders_none structure_none (fun t => t) (page_one_rect, page_one_rect) in
  snd run = Ok false
  /\ map type (rects (fst (fst run))) = [10%Z].
Proof. split; reflexivity. Qed.

(** * Further properties *)

(** ** The margin and the content *)

(** The loops of [min] and [max] return an element of the list that bounds
    every element. *)
Lemma fold_min2_is_min (xs : list Q) (a : Q) :
  In (fold_left min2 xs a) (a :: xs)
  /\ forall y, In y (a :: xs) -> fold_left min2 xs a <= y.
Proof.
  split; [apply fold_min2_In |].
  intros y [<- | Hy]; [apply fold_min2_le_init | now apply fold_min2_le].
Qed.

Lemma fold_max2_is_max (xs : list Q) (a : Q) :
  In (fold_left max2 xs a) (a :: xs)
  /\ forall y, In y (a :: xs) -> y <= fold_left max2 xs a.
Proof.
  split; [apply fold_max2_In |].
  intros y [<- | Hy]; [apply fold_max2_ge_init | now apply fold_max2_ge].
Qed.

(** The extremes of a coordinate [f] over the blocks [b :: bs]. *)
Lemma min_coordinate (f : BBox -> Q) (b : Block) (bs : list Block) :
  let m := fold_left min2 (map f (map bbox bs)) (f (bbox b)) in
  (exists blk, In blk (b :: bs) /\ f (bbox blk) = m)
  /\ forall blk, In blk (b :: bs) -> m <= f (bbox blk).
Proof.
  intros m.
  destruct (fold_min2_is_min (map f (map bbox bs)) (f (bbox b))) as [Hin Hle].
  fold m in Hin, Hle. rewrite map_map in Hin, Hle.
  change (In m (map (fun x => f (bbox x)) (b :: bs))) in Hin.
  apply in_map_iff in Hin. destruct Hin as (blk & E & Hblk). split.
  - now exists blk.
  - intros blk' Hblk'. apply Hle.
    change (In (f (bbox blk')) (map (fun x => f (bbox x)) (b :: bs))).
    apply in_map_iff. now exists blk'.
Qed.

Lemma max_coordinate (f : BBox -> Q) (b : Block) (bs : list Block) :
  let m := fold_left max2 (map f (map bbox bs)) (f (bbox b)) in
  (exists blk, In blk (b :: bs) /\ f (bbox blk) = m)
  /\ forall blk, In blk (b :: bs) -> f (bbox blk) <= m.
Proof.
  intros m.
  destruct (fold_max2_is_max (map f (map bbox bs)) (f (bbox b))) as [Hin Hle].
  fold m in Hin, Hle. rewrite map_map in Hin, Hle.
  change (In m (map (fun x => f (bbox x)) (b :: bs))) in Hin.
  apply in_map_iff in Hin. destruct Hin as (blk & E & Hblk). split.
  - now exists blk.
  - intros blk' Hblk'. apply Hle.
    change (In (f (bbox blk')) (map (fun x => f (bbox x)) (b :: bs))).
    apply in_map_iff. now exists blk'.
Qed.

Section MarginAndContent.

Variables ITP DM : Q.


(** X2.  A page whose blocks all keep at least the normal margin from
    every edge (with the tolerance taken twice on the right, and twice the
    normal margin at the bottom) gets exactly the normal margin on all four
    sides. *)
Theorem page_margin_saturates (self : Layout) :
  (forall blk, In blk (blocks self) ->
     ITP <= x0 (bbox blk) /\ ITP <= y0 (bbox blk)
     /\ x1 (bbox blk) + DM * 2 + ITP <= width self
     /\ y1 (bbox blk) + 2 * ITP <= height self) ->
  page_margin ITP DM self = (set_margin self (Some (ITP, ITP, ITP, ITP)), Ok tt).
Proof.
  intros Hall.
  destruct (blocks self) as [| b bs] eqn:Hbs.
  - now apply page_margin_no_blocks.
  - rewrite (page_margin_nonempty ITP DM self b bs Hbs).
    destruct (min_coordinate x0 b bs) as [(bl & Hbl & El) _].
    destruct (min_coordinate y0 b bs) as [(bt & Hbt & Et) _].
    destruct (max_coordinate x1 b bs) as [(br & Hbr & Er) _].
    destruct (max_coordinate y1 b bs) as [(bb & Hbb & Eb) _].
    cbv zeta in *. rewrite <- El, <- Et, <- Er, <- Eb.
    destruct (Hall bl Hbl) as (Hl & _).
    destruct (Hall bt Hbt) as (_ & Ht & _).
    destruct (Hall br Hbr) as (_ & _ & Hr & _).
    destruct (Hall bb Hbb) as (_ & _ & _ & Hb).
    assert (E : forall v, ITP <= v -> min2 ITP v = ITP).
    { intros v Hv. destruct (min2_cases ITP v) as [[? _] | [_ ->]]; [lra | reflexivity]. }
    rewrite !E; [reflexivity | | | |]; minmax_lra.
Qed.

(** X3.  One more block never makes a margin larger: each of the four
    values computed with the block is at most the value computed without
    it. *)
Theorem page_margin_antitone (self : Layout) (b : Block) :
  exists left right top bottom left' right' top' bottom',
    page_margin ITP DM self
    = (set_margin self (Some (left, right, top, bottom)), Ok tt)
    /\ page_margin ITP DM (set_blocks self (b :: blocks self))
       = (set_margin (set_blocks self (b :: blocks self))
            (Some (left', right', top', bottom')), Ok tt)
    /\ left' <= left /\ right' <= right /\ top' <= top /\ bottom' <= bottom.
Proof.
  destruct (blocks self) as [| b2 bs] eqn:Hbs.
  - do 8 eexists. split; [now apply page_margin_no_blocks |].
    split; [apply (page_margin_nonempty ITP DM _ b []); reflexivity |].
    cbn [map fold_left]. repeat split; minmax_lra.
  - do 8 eexists. split; [apply (page_margin_nonempty ITP DM self b2 bs Hbs) |].
    split; [apply (page_margin_nonempty ITP DM _ b (b2 :: bs)); reflexivity |].
    destruct (min_coordinate x0 b2 bs) as [(bl & Hbl & El) _].
    destruct (min_coordinate y0 b2 bs) as [(bt & Hbt & Et) _].
    destruct (max_coordinate x1 b2 bs) as [(br & Hbr & Er) _].
    destruct (max_coordinate y1 b2 bs) as [(bb & Hbb & Eb) _].
    destruct (min_coordinate x0 b (b2 :: bs)) as [_ Hl].
    destruct (min_coordinate y0 b (b2 :: bs)) as [_ Ht].
    destruct (max_coordinate x1 b (b2 :: bs)) as [_ Hr].
    destruct (max_coordinate y1 b (b2 :: bs)) as [_ Hb].
    specialize (Hl bl (or_intror Hbl)). specialize (Ht bt (or_intror Hbt)).
    specialize (Hr br (or_intror Hbr)). specialize (Hb bb (or_intror Hbb)).
    cbv zeta in *. rewrite El in Hl. rewrite Et in Ht.
    rewrite Er in Hr. rewrite Eb in Hb. clear El Et Er Eb.
    cbn [width height set_blocks].
    set (l := fold_left min2 (map x0 (map bbox bs)) _) in *.
    set (t := fold_left min2 (map y0 (map bbox bs)) _) in *.
    set (r := fold_left max2 (map x1 (map bbox bs)) _) in *.
    set (m := fold_left max2 (map y1 (map bbox bs)) _) in *.
    set (l' := fold_left min2 _ _) in *. set (t' := fold_left min2 _ _) in *.
    set (r' := fold_left max2 _ _) in *. set (m' := fold_left max2 _ _) in *.
    clearbody l t r m l' t' r' m'.
    repeat split; minmax_lra.
Qed.

End MarginAndContent.


Section MarginAndOrder.

Variables ITP DM : Q.

(** X4.  The margin does not depend on the order of the blocks: two
    layouts of the same width and height whose block collections are
    permutations of each other get margins that are equal as rationals. *)
Theorem page_margin_permutation (self other : Layout) :
  width other = width self -> height other = height self ->
  Permutation (blocks self) (blocks other) ->
  exists m m',
    page_margin ITP DM self = (set_margin self (Some m), Ok tt)
    /\ page_margin ITP DM other = (set_margin other (Some m'), Ok tt)
    /\ Tuple4_eq m m'.
Proof.
  intros Hw Hh Hperm.
  destruct (blocks self) as [| b bs] eqn:Hs.
  - apply Permutation_nil in Hperm.
    exists (ITP, ITP, ITP, ITP), (ITP, ITP, ITP, ITP).
    split; [now apply page_margin_no_blocks |].
    split; [now apply page_margin_no_blocks |].
    repeat split; reflexivity.
  - destruct (blocks other) as [| b' bs'] eqn:Ho.
    { symmetry in Hperm. apply Permutation_nil in Hperm. discriminate. }
    eexists _, _.
    split; [apply (page_margin_nonempty ITP DM self b bs Hs) |].
    split; [apply (page_margin_nonempty ITP DM other b' bs' Ho) |].
    assert (Hmin : forall f,
      fold_left min2 (map f (map bbox bs)) (f (bbox b))
      == fold_left min2 (map f (map bbox bs')) (f (bbox b'))).
    { intros f.
      destruct (min_coordinate f b bs) as [(k & Hk & Ek) Hle].
      destruct (min_coordinate f b' bs') as [(k' & Hk' & Ek') Hle'].
      cbv zeta in *. apply Qle_antisym.
      - rewrite <- Ek'. apply Hle.
        apply (Permutation_in k' (Permutation_sym Hperm) Hk').
      - rewrite <- Ek. apply Hle'. apply (Permutation_in k Hperm Hk). }
    assert (Hmax : forall f,
      fold_left max2 (map f (map bbox bs)) (f (bbox b))
      == fold_left max2 (map f (map bbox bs')) (f (bbox b'))).
    { intros f.
      destruct (max_coordinate f b bs) as [(k & Hk & Ek) Hle].
      destruct (max_coordinate f b' bs') as [(k' & Hk' & Ek') Hle'].
      cbv zeta in *. apply Qle_antisym.
      - rewrite <- Ek. apply Hle'. apply (Permutation_in k Hperm Hk).
      - rewrite <- Ek'. apply Hle.
        apply (Permutation_in k' (Permutation_sym Hperm) Hk'). }
    pose proof (Hmin x0) as E1. pose proof (Hmax x1) as E2.
    pose proof (Hmin y0) as E3. pose proof (Hmax y1) as E4.
    clear Hmin Hmax. rewrite Hw, Hh. unfold Tuple4_eq.
    set (l := fold_left min2 (map x0 (map bbox bs)) _) in *.
    set (t := fold_left min2 (map y0 (map bbox bs)) _) in *.
    set (r := fold_left max2 (map x1 (map bbox bs)) _) in *.
    set (m := fold_left max2 (map y1 (map bbox bs)) _) in *.
    set (l' := fold_left min2 _ _) in *. set (t' := fold_left min2 _ _) in *.
    set (r' := fold_left max2 _ _) in *. set (m' := fold_left max2 _ _) in *.
    clearbody l t r m l' t' r' m'.
    repeat split; minmax_lra.
Qed.

End MarginAndOrder.

(** ** Storing and loading again *)

Section StoreFacts.

Variables ITP DM : Q.
Variable Blocks_store : list Block -> list Block.
Variable Rectangles_store : list Rect -> list Rect.


End StoreFacts.

(** ** What the spacing pass keeps, and its page scope *)

Section SpacingFrame.

Variables ITP DM : Q.
Variable Bpvs : Q -> Q -> list Block -> list Block.

Lemma spacing_in_cell_frame (cell : Cell) :
  same_frame_cell cell (fst (spacing_in_cell Bpvs cell)).
Proof.
  destruct cell as [| [[[xa ya] xb] yb] [[[wt wr] wb] wl] cbs]; simpl; auto.
Qed.

Lemma spacing_in_table_frame (block : Block) :
  same_frame block (fst (spacing_in_table Bpvs block)).
Proof.
  destruct block as [bb sp | bb sp cells]; [simpl; auto |].
  unfold spacing_in_table. rewrite for_each_spec. cbn [fst same_frame].
  split; [reflexivity |]. split; [reflexivity |].
  induction cells as [| row cells IH]; constructor; [| exact IH].
  rewrite for_each_spec. cbn [fst].
  induction row as [| cell row IHrow]; constructor; [| exact IHrow].
  apply spacing_in_cell_frame.
Qed.

Lemma spacing_in_table_text (block : Block) :
  is_table_block block = false ->
  spacing_in_table Bpvs block = (block, []).
Proof. destruct block; [reflexivity | discriminate]. Qed.

(** X6.  Once the margin is there, the loop over the table cells changes
    nothing but the content of non-empty cells: the layout keeps its width,
    height, margin and rects, and the page collection, as the page-level
    pass has left it, keeps its length and order; a text block is left as
    it is; a table keeps its box, its spacing and the shape of its grid,
    where an empty cell stays empty and a non-empty cell keeps its raw box
    and its border widths. *)
Theorem parse_vertical_spacing_keeps_frame (self : Layout)
  (ml mr top bottom : Q) :
  margin self = Some (ml, mr, top, bottom) ->
  let page_blocks := Bpvs top (height self - bottom) (blocks self) in
  exists final calls,
    parse_vertical_spacing Bpvs self = (final, Ok calls)
    /\ width final = width self /\ height final = height self
    /\ margin final = margin self /\ rects final = rects self
    /\ Forall2 same_frame page_blocks (blocks final).
Proof.
  intros Hm page_blocks. eexists _, _.
  split; [apply (parse_vertical_spacing_run Bpvs self ml mr top bottom Hm) |].
  fold page_blocks. cbn [width height margin _margin rects blocks set_blocks].
  repeat split.
  induction page_blocks as [| b bs IH]; constructor; [| exact IH].
  apply spacing_in_table_frame.
Qed.

(** X7.  When the page-level pass leaves no table block in the page
    collection, the method makes the page-level call only and leaves the
    collection as that call has left it. *)
Theorem parse_vertical_spacing_without_tables (self : Layout)
  (ml mr top bottom : Q) :
  margin self = Some (ml, mr, top, bottom) ->
  let page_blocks := Bpvs top (height self - bottom) (blocks self) in
  (forall b, In b page_blocks -> is_table_block b = false) ->
  parse_vertical_spacing Bpvs self
  = (set_blocks self page_blocks,
     Ok [(top, height self - bottom, blocks self)]).
Proof.
  intros Hm page_blocks Htext.
  rewrite (parse_vertical_spacing_run Bpvs self ml mr top bottom Hm).
  fold page_blocks.
  assert (E : (fun b => fst (spacing_in_table Bpvs b)) <$> page_blocks
              = page_blocks
              /\ page_cells page_blocks = []).
  { clearbody page_blocks.
    induction page_blocks as [| b bs IH]; [split; reflexivity |].
    destruct IH as [IH1 IH2]; [intros b' Hb'; apply Htext; now right |].
    unfold page_cells in *. cbn [fmap list_fmap flat_map].
    change (list_fmap _ _ (fun b => fst (spacing_in_table Bpvs b)) bs)
      with ((fun b => fst (spacing_in_table Bpvs b)) <$> bs).
    rewrite IH1, IH2.
    rewrite (spacing_in_table_text b) by (apply Htext; now left).
    destruct b; [split; reflexivity |].
    specialize (Htext _ (or_introl eq_refl)). discriminate. }
  destruct E as [-> ->]. reflexivity.
Qed.

(** X8.  After [page_margin], [parse_vertical_spacing] returns on every
    layout, and the margin is still the one [page_margin] has stored. *)
Theorem page_margin_then_spacing (self : Layout) :
  exists m final calls,
    page_margin ITP DM self = (set_margin self (Some m), Ok tt)
    /\ parse_vertical_spacing Bpvs (set_margin self (Some m))
       = (final, Ok calls)
    /\ margin final = Some m.
Proof.
  destruct (page_margin_returns ITP DM self) as ([[[ml mr] top] bottom] & E).
  eexists _, _, _. split; [exact E |].
  split; [apply (parse_vertical_spacing_run Bpvs _ ml mr top bottom);
          reflexivity |].
  reflexivity.
Qed.

(** X9.  After [page_margin], the scope of the page-level call holds the
    blocks: its top is not below the y0 of any block, and its bottom is
    not above the y1 of any block that ends within the page height. *)
Theorem page_scope_encloses_blocks (self : Layout) (blk : Block) :
  In blk (blocks self) ->
  exists with_margin final scope_top scope_bottom rest,
    page_margin ITP DM self = (with_margin, Ok tt)
    /\ parse_vertical_spacing Bpvs with_margin
       = (final, Ok ((scope_top, scope_bottom, blocks self) :: rest))
    /\ scope_top <= y0 (bbox blk)
    /\ (y1 (bbox blk) <= height self -> y1 (bbox blk) <= scope_bottom).
Proof.
  intros Hblk.
  destruct (blocks self) as [| b bs] eqn:Hbs; [destruct Hblk |].
  eexists _, _, _, _, _.
  split; [apply (page_margin_nonempty ITP DM self b bs Hbs) |].
  split.
  { match goal with
    | |- parse_vertical_spacing _ (set_margin ?s (Some (?l, ?r, ?t, ?bo))) = _ =>
      rewrite (parse_vertical_spacing_run Bpvs
                 (set_margin s (Some (l, r, t, bo))) l r t bo eq_refl)
    end.
    cbn [blocks height set_margin]. rewrite Hbs. reflexivity. }
  destruct (min_coordinate y0 b bs) as [_ Hy0].
  destruct (max_coordinate y1 b bs) as [_ Hy1].
  specialize (Hy0 blk Hblk). specialize (Hy1 blk Hblk). cbv zeta in *.
  set (top := fold_left min2 _ _) in *. set (y_max := fold_left max2 _ _) in *.
  clearbody top y_max.
  split; [minmax_lra | intros Hin; minmax_lra].
Qed.

(** X10.  On a page without blocks, after [page_margin], the page-level
    call has the bounds [ITP] and height - [ITP]: the scope is upside down
    as soon as the page is less than two normal margins high. *)
Theorem page_scope_without_blocks (self : Layout) :
  blocks self = [] ->
  exists with_margin final rest,
    page_margin ITP DM self = (with_margin, Ok tt)
    /\ parse_vertical_spacing Bpvs with_margin
       = (final, Ok ((ITP, height self - ITP, []) :: rest))
    /\ (height self < 2 * ITP <-> height self - ITP < ITP).
Proof.
  intros Hbs. eexists _, _, _.
  split; [now apply page_margin_no_blocks |].
  split.
  { match goal with
    | |- parse_vertical_spacing _ (set_margin ?s (Some (?l, ?r, ?t, ?bo))) = _ =>
      rewrite (parse_vertical_spacing_run Bpvs
                 (set_margin s (Some (l, r, t, bo))) l r t bo eq_refl)
    end.
    cbn [blocks height set_margin]. rewrite Hbs. reflexivity. }
  split; intros H; lra.
Qed.

End SpacingFrame.

(** ** The loop over the rect groups, with the helper names bound *)

(** The reset loop, rect by rect: a rect of the group gets the tag [-1]
    and keeps its box; any other rect is as it was. *)
Lemma reset_types_at (group : list nat) (store : list Rect) (i : nat) :
  reset_types group store !! i
  = if in_dec Nat.eq_dec i group
    then set_type (-1) <$> store !! i
    else store !! i.
Proof.
  unfold reset_types. revert store.
  induction group as [| g group IH]; intros store; [reflexivity |].
  cbn [fold_left]. rewrite IH.
  destruct (Nat.eq_dec g i) as [-> | Hne].
  - rewrite list_lookup_alter_eq.
    destruct (in_dec Nat.eq_dec i (i :: group)) as [_ | Hn];
      [| exfalso; apply Hn; now left].
    destruct (in_dec Nat.eq_dec i group); [| reflexivity].
    destruct (store !! i); reflexivity.
  - rewrite list_lookup_alter_ne by exact Hne.
    destruct (in_dec Nat.eq_dec i group) as [Hi | Hi];
      destruct (in_dec Nat.eq_dec i (g :: group)) as [Hi' | Hi'];
      try reflexivity.
    + exfalso. apply Hi'. now right.
    + exfalso. destruct Hi' as [E | Hi']; [now apply Hne | now apply Hi].
Qed.

Lemma bind_run {S A B : Type} (c : M S A) (k : A -> M S B) (s : S) :
  (c ≫= k) s
  = match c s with
    | (s', Ok a) => k a s'
    | (s', Raise e) => (s', Raise e)
    end.
Proof. reflexivity. Qed.

Section GroupLoop.

Variable globals : list string.
Variable Rectangles_group : list Rect -> list (list nat).
Variable _set_table_borders : list nat -> M (list Rect) bool.
Variable _parse_table_structure_from_rects :
  list nat -> M (list Rect) (option Block).
Variable set_explicit_table_block : Block -> Block.

(** X13.  With the helper names bound: for a group that
    [_set_table_borders] accepts and whose structure cannot be parsed, no
    table is added, every rect of the group ends with the tag [-1] and
    its box, and every other rect is as the helpers have left it. *)
Theorem failed_group_is_reset (self layout : Layout)
  (tables : list Block) (group : list nat) (store store' : list Rect) :
  existsb (String.eqb "_set_table_borders") globals = true ->
  existsb (String.eqb "_parse_table_structure_from_rects") globals = true ->
  _set_table_borders group (rects self) = (store, Ok true) ->
  _parse_table_structure_from_rects group store = (store', Ok None) ->
  exists final_rects,
    check_group globals _set_table_borders _parse_table_structure_from_rects
      set_explicit_table_block tables group (self, layout)
    = ((set_rects self final_rects, layout), Ok tables)
    /\ length final_rects = length store'
    /\ forall i,
         final_rects !! i
         = if in_dec Nat.eq_dec i group
           then set_type (-1) <$> store' !! i
           else store' !! i.
Proof.
  intros Hb1 Hb2 Hs Hp. exists (reset_types group store').
  split; [| split; [apply reset_types_length | apply reset_types_at]].
  unfold check_group, mbind, M_bind.
  rewrite load_global_bound by exact Hb1.
  unfold on_rects, on_self. cbn [fst snd]. rewrite Hs. cbn [negb fst snd].
  rewrite load_global_bound by exact Hb2.
  cbn [fst snd rects set_rects]. rewrite Hp. reflexivity.
Qed.

(** X14.  With the helper names bound: for a group that
    [_set_table_borders] accepts and whose structure is parsed, the table,
    passed through [set_explicit_table_block], is added after the tables
    found so far, and no rect is reset. *)
Theorem parsed_group_adds_table (self layout : Layout)
  (tables : list Block) (group : list nat) (store store' : list Rect)
  (table : Block) :
  existsb (String.eqb "_set_table_borders") globals = true ->
  existsb (String.eqb "_parse_table_structure_from_rects") globals = true ->
  existsb (String.eqb "set_explicit_table_block") globals = true ->
  _set_table_borders group (rects self) = (store, Ok true) ->
  _parse_table_structure_from_rects group store = (store', Ok (Some table)) ->
  check_group globals _set_table_borders _parse_table_structure_from_rects
    set_explicit_table_block tables group (self, layout)
  = ((set_rects self store', layout),
     Ok (tables ++ [set_explicit_table_block table])).
Proof.
  intros Hb1 Hb2 Hb3 Hs Hp.
  unfold check_group, mbind, M_bind.
  rewrite load_global_bound by exact Hb1.
  unfold on_rects, on_self. cbn [fst snd]. rewrite Hs. cbn [negb fst snd].
  rewrite load_global_bound by exact Hb2.
  cbn [fst snd rects set_rects]. rewrite Hp.
  rewrite load_global_bound by exact Hb3. reflexivity.
Qed.




End GroupLoop.

(** ** Plotting *)

Section PlotFacts.

Variables is_explicit_table_block is_implicit_table_block : Block -> bool.

(** X16.  [plot] inserts no page and makes no call when the key is none
    of the four it knows, and, whatever the key, when the layout has
    neither blocks nor rects. *)
Theorem plot_nothing (self : Layout) (title key : string)
  (doc : list DocEvent) :
  (key <> "layout" /\ key <> "table" /\ key <> "implicit_table"
   /\ key <> "shape")%string
  \/ (blocks self = [] /\ rects self = []) ->
  plot is_explicit_table_block is_implicit_table_block self title key doc
  = (doc, Ok tt).
Proof.
  intros H.
  assert (E : plot_objects is_explicit_table_block is_implicit_table_block
                self key = []).
  { unfold plot_objects. destruct H as [(H1 & H2 & H3 & H4) | [Hb Hr]].
    - apply String.eqb_neq in H1, H2, H3, H4. now rewrite H1, H2, H3, H4.
    - rewrite Hb, Hr. repeat destruct (String.eqb _ _); reflexivity. }
  unfold plot. rewrite E. reflexivity.
Qed.

(** X17.  The two table views.  With the key "table" ("implicit_table"),
    [plot] inserts a page exactly when some block of the page passes
    [is_explicit_table_block] ([is_implicit_table_block]); the page gets
    the width, height and current margin of the layout; the calls that
    follow are for the blocks that pass the test, one each, in the order
    of the page, with [style] true (false) and [content] false. *)
Theorem plot_table_views (self : Layout) (title : string)
  (doc : list DocEvent) (explicit : bool) :
  let key := (if explicit then "table" else "implicit_table")%string in
  let test :=
    if explicit then is_explicit_table_block else is_implicit_table_block in
  let chosen := List.filter test (blocks self) in
  let added :=
    match chosen with
    | [] => []
    | _ :: _ =>
      NewPage (width self) (height self) (margin self) title
        :: map (fun b => PlotCall (PlotBlock b) (Some explicit) (Some false))
               chosen
    end in
  plot is_explicit_table_block is_implicit_table_block self title key doc
  = (doc ++ added, Ok tt)
  /\ (added = [] <-> forall b, In b (blocks self) -> test b = false)
  /\ forall b, In b chosen -> In b (blocks self) /\ test b = true.
Proof.
  intros key test chosen added.
  assert (Hobj : plot_objects is_explicit_table_block is_implicit_table_block
                   self key = map PlotBlock chosen)
    by (destruct explicit; reflexivity).
  assert (Hcalls : forall objs,
            plot_calls key (map PlotBlock objs)
            = map (fun b => PlotCall (PlotBlock b) (Some explicit) (Some false))
                  objs).
  { intros objs.
    rewrite <- (map_map PlotBlock
                  (fun item => PlotCall item (Some explicit) (Some false))).
    destruct explicit; reflexivity. }
  split; [| split].
  - unfold plot. rewrite Hobj. subst added.
    destruct chosen as [| b bs] eqn:Hc.
    + cbn. now rewrite app_nil_r.
    + rewrite <- (Hcalls (b :: bs)). cbn [map]. rewrite bind_run.
      unfold modify. now rewrite <- app_assoc.
  - subst added. split.
    + intros Hnil b Hb. destruct (test b) eqn:Ht; [| reflexivity].
      assert (Hin : In b chosen) by (apply filter_In; now split).
      destruct chosen; [destruct Hin | discriminate].
    + intros Hall. destruct chosen as [| b bs] eqn:Hc; [reflexivity |].
      assert (Hin : In b chosen) by (rewrite Hc; now left).
      apply filter_In in Hin. destruct Hin as [Hb Ht].
      rewrite (Hall b Hb) in Ht. discriminate.
  - intros b Hb. now apply filter_In in Hb.
Qed.

End PlotFacts.

(** ** Runs of the further properties on the sample pages *)


Lemma page_margin_saturates_witness :
  (forall blk, In blk (blocks page_centered) ->
     72 <= x0 (bbox blk) /\ 72 <= y0 (bbox blk)
     /\ x1 (bbox blk) + 1 * 2 + 72 <= width page_centered
     /\ y1 (bbox blk) + 2 * 72 <= height page_centered)
  /\ page_margin 72 1 page_centered
     = (set_margin page_centered (Some (72, 72, 72, 72)), Ok tt).
Proof.
  assert (H : forall blk, In blk (blocks page_centered) ->
     72 <= x0 (bbox blk) /\ 72 <= y0 (bbox blk)
     /\ x1 (bbox blk) + 1 * 2 + 72 <= width page_centered
     /\ y1 (bbox blk) + 2 * 72 <= height page_centered).
  { intros blk [<- | []]. repeat split; discriminate. }
  split; [exact H | apply (page_margin_saturates 72 1 page_centered H)].
Defined.

Lemma page_margin_permutation_witness :
  (width page_600_800_swapped = width page_600_800
   /\ height page_600_800_swapped = height page_600_800
   /\ Permutation (blocks page_600_800) (blocks page_600_800_swapped))
  /\ exists m m',
       page_margin 72 1 page_600_800
       = (set_margin page_600_800 (Some m), Ok tt)
       /\ page_margin 72 1 page_600_800_swapped
          = (set_margin page_600_800_swapped (Some m'), Ok tt)
       /\ Tuple4_eq m m'.
Proof.
  assert (H : Permutation (blocks page_600_800) (blocks page_600_800_swapped))
    by apply perm_swap.
  split; [split; [reflexivity | split; [reflexivity | exact H]] |].
  apply (page_margin_permutation 72 1 page_600_800 page_600_800_swapped
           eq_refl eq_refl H).
Defined.


Lemma parse_vertical_spacing_keeps_frame_witness :
  margin page_nested_table = Some (0, 0, 0, 0)
  /\ exists final calls,
       parse_vertical_spacing Blocks_parse_vertical_spacing_spec
         page_nested_table = (final, Ok calls)
       /\ width final = width page_nested_table
       /\ height final = height page_nested_table
       /\ margin final = margin page_nested_table
       /\ rects final = rects page_nested_table
       /\ Forall2 same_frame
            (Blocks_parse_vertical_spacing_spec
               0 (height page_nested_table - 0) (blocks page_nested_table))
            (blocks final).
Proof.
  split; [reflexivity |].
  apply (parse_vertical_spacing_keeps_frame Blocks_parse_vertical_spacing_spec
           page_nested_table 0 0 0 0).
  reflexivity.
Defined.

Lemma parse_vertical_spacing_without_tables_witness :
  (margin page_600_800_margin = Some (50, 48, 60, 20)
   /\ forall b,
        In b (Blocks_parse_vertical_spacing_spec
                60 (height page_600_800_margin - 20)
                (blocks page_600_800_margin)) ->
        is_table_block b = false)
  /\ parse_vertical_spacing Blocks_parse_vertical_spacing_spec
       page_600_800_margin
     = (set_blocks page_600_800_margin
          (Blocks_parse_vertical_spacing_spec
             60 (height page_600_800_margin - 20)
             (blocks page_600_800_margin)),
        Ok [(60, height page_600_800_margin - 20,
             blocks page_600_800_margin)]).
Proof.
  assert (H : forall b,
        In b (Blocks_parse_vertical_spacing_spec
                60 (height page_600_800_margin - 20)
                (blocks page_600_800_margin)) ->
        is_table_block b = false).
  { intros b [<- | [<- | []]]; reflexivity. }
  split; [split; [reflexivity | exact H] |].
  apply (parse_vertical_spacing_without_tables
           Blocks_parse_vertical_spacing_spec page_600_800_margin
           50 48 60 20 eq_refl H).
Defined.

Lemma page_scope_encloses_blocks_witness :
  In (TextBlock (mkBBox 50 120 550 760) 0) (blocks page_600_800)
  /\ exists with_margin final scope_top scope_bottom rest,
       page_margin 72 1 page_600_800 = (with_margin, Ok tt)
       /\ parse_vertical_spacing Blocks_parse_vertical_spacing_spec with_margin
          = (final, Ok ((scope_top, scope_bottom, blocks page_600_800) :: rest))
       /\ scope_top <= 120
       /\ (760 <= height page_600_800 -> 760 <= scope_bottom).
Proof.
  split; [right; now left |].
  apply (page_scope_encloses_blocks 72 1 Blocks_parse_vertical_spacing_spec
           page_600_800 (TextBlock (mkBBox 50 120 550 760) 0)).
  right. now left.
Defined.

Lemma page_scope_without_blocks_witness :
  blocks (Layout_init raw_empty) = []
  /\ exists with_margin final rest,
       page_margin 72 1 (Layout_init raw_empty) = (with_margin, Ok tt)
       /\ parse_vertical_spacing Blocks_parse_vertical_spacing_spec with_margin
          = (final,
             Ok ((72, height (Layout_init raw_empty) - 72, []) :: rest))
       /\ (height (Layout_init raw_empty) < 2 * 72
           <-> height (Layout_init raw_empty) - 72 < 72).
Proof.
  split; [reflexivity |].
  apply (page_scope_without_blocks 72 1 Blocks_parse_vertical_spacing_spec
           (Layout_init raw_empty)).
  reflexivity.
Defined.

Lemma parse_table_structure_from_rects_no_group_witness :
  group_all (rects page_600_800) = []
  /\ parse_table_structure_from_rects module_globals group_all
       borders_none structure_none (fun t => t) (page_600_800, page_600_800)
     = ((page_600_800, page_600_800), Ok false).
Proof.
  split; [reflexivity |].
  apply (parse_table_structure_from_rects_no_group group_all borders_none
           structure_none (fun t => t) module_globals
           page_600_800 page_600_800).
  reflexivity.
Defined.

Lemma check_group_skipped_witness :
  (existsb (String.eqb "_set_table_borders") globals_with_helpers = true
   /\ borders_none [0%nat] (rects page_one_rect)
      = (rects page_one_rect, Ok false))
  /\ check_group globals_with_helpers borders_none structure_none
       (fun t => t) [] [0%nat] (page_one_rect, page_one_rect)
     = ((set_rects page_one_rect (rects page_one_rect), page_one_rect), Ok []).
Proof.
  split; [split; reflexivity |].
  apply (check_group_skipped borders_none structure_none (fun t => t)
           globals_with_helpers page_one_rect page_one_rect [] [0%nat]
           (rects page_one_rect)); reflexivity.
Defined.

Lemma failed_group_is_reset_witness :
  (existsb (String.eqb "_set_table_borders") globals_with_helpers = true
   /\ existsb (String.eqb "_parse_table_structure_from_rects")
        globals_with_helpers = true
   /\ borders_all [0%nat] (rects page_one_rect)
      = (rects page_one_rect, Ok true)
   /\ structure_none [0%nat] (rects page_one_rect)
      = (rects page_one_rect, Ok None))
  /\ exists final_rects,
       check_group globals_with_helpers borders_all structure_none
         (fun t => t) [] [0%nat] (page_one_rect, page_one_rect)
       = ((set_rects page_one_rect final_rects, page_one_rect), Ok [])
       /\ length final_rects = length (rects page_one_rect)
       /\ forall i,
            final_rects !! i
            = if in_dec Nat.eq_dec i [0%nat]
              then set_type (-1) <$> rects page_one_rect !! i
              else rects page_one_rect !! i.
Proof.
  split; [repeat split |].
  apply (failed_group_is_reset globals_with_helpers borders_all structure_none
           (fun t => t) page_one_rect page_one_rect [] [0%nat]
           (rects page_one_rect) (rects page_one_rect)); reflexivity.
Defined.

Lemma parsed_group_adds_table_witness :
  (existsb (String.eqb "_set_table_borders") globals_with_helpers = true
   /\ existsb (String.eqb "_parse_table_structure_from_rects")
        globals_with_helpers = true
   /\ existsb (String.eqb "set_explicit_table_block") globals_with_helpers
      = true
   /\ borders_all [0%nat] (rects page_one_rect)
      = (rects page_one_rect, Ok true)
   /\ structure_table [0%nat] (rects page_one_rect)
      = (rects page_one_rect,
         Ok (Some (TableBlock (mkBBox 10 10 200 11) 0 []))))
  /\ check_group globals_with_helpers borders_all structure_table
       (fun t => t) [] [0%nat] (page_one_rect, page_one_rect)
     = ((set_rects page_one_rect (rects page_one_rect), page_one_rect),
        Ok ([] ++ [TableBlock (mkBBox 10 10 200 11) 0 []])).
Proof.
  split; [repeat split |].
  apply (parsed_group_adds_table globals_with_helpers borders_all
           structure_table (fun t => t) page_one_rect page_one_rect []
           [0%nat] (rects page_one_rect) (rects page_one_rect)
           (TableBlock (mkBBox 10 10 200 11) 0 [])); reflexivity.
Defined.


Lemma plot_nothing_witness :
  ((("text" <> "layout" /\ "text" <> "table" /\ "text" <> "implicit_table"
     /\ "text" <> "shape")%string
    \/ (blocks page_600_800 = [] /\ rects page_600_800 = []))
   /\ plot explicit_if_table never_implicit page_600_800 "page 1" "text" []
      = ([], Ok tt)).
Proof.
  assert (H : ("text" <> "layout" /\ "text" <> "table"
               /\ "text" <> "implicit_table" /\ "text" <> "shape")%string)
    by (repeat split; discriminate).
  split; [left; exact H |].
  apply (plot_nothing explicit_if_table never_implicit page_600_800
           "page 1" "text" []).
  left. exact H.
Defined.

(** The explicit-table view of the page with a table inside a table: one
    page, one call, for the outer table. *)
Example plot_nested_table :
  plot explicit_if_table never_implicit page_nested_table "tables" "table" []
  = ([NewPage 600 800 (Some (0, 0, 0, 0)) "tables";
      PlotCall (PlotBlock outer_table) (Some true) (Some false)], Ok tt).
Proof. reflexivity. Qed.
